(** * DiaBeatIt: the frontend's decision logic and the health-metrics contract

    A shallow embedding of the logic of the React frontend (ProfileForm.jsx,
    MealPlan.jsx, services/api.js, App.jsx, utils/constants.js) and of the
    contract of the backend's HealthMetricsCalculator.

    Conventions.  A JavaScript number is an exact rational [Q]: the rounding
    of doubles is not modelled.  A JavaScript string is a [string], byte by
    byte.  An object used as a dictionary is a [gmap]; a JSON value of
    unknown shape is a [Js.value].  A callback that writes React state or
    mutates its argument returns the new value. *)

From Stdlib Require Import ZArith QArith Qround Bool List Lia Lqa.
From Stdlib Require Import Ascii String.
From stdpp Require Import gmap strings.

Local Open Scope Z_scope.

(** ** JavaScript primitives used by the components *)

Module Js.

(** [Math.round x]: the nearest integer, a tie going up. *)
Definition Math_round (x : Q) : Z := Qfloor (x + (1 # 2))%Q.

(** [x <= y] and [x < y] on numbers, as booleans. *)
Definition le (x y : Q) : bool := Qle_bool x y.
Definition lt (x y : Q) : bool := negb (Qle_bool y x).
Definition gt (x y : Q) : bool := lt y x.

(** The values a JSON document, a missing property or a piece of React
    state can hold.  An array is an object whose keys are its indices: for
    [typeof], truthiness and property access the two behave alike. *)
#[warnings="-register-all"]
Inductive value : Type :=
| Undefined
| Null
| Bool (b : bool)
| Num (q : Q)
| Str (s : string)
| Obj (fields : list (string * value)).

(** ToBoolean. *)
Definition truthy (v : value) : bool :=
  match v with
  | Undefined | Null => false
  | Bool b => b
  | Num q => negb (Qeq_bool q 0)
  | Str s => negb (String.eqb s "")
  | Obj _ => true
  end.

(** [a || b] *)
Definition or (a b : value) : value := if truthy a then a else b.

(** [typeof v === 'object'] *)
Definition typeof_object (v : value) : bool :=
  match v with Null | Obj _ => true | _ => false end.

Fixpoint assoc (k : string) (fields : list (string * value)) : value :=
  match fields with
  | [] => Undefined
  | (k', v) :: rest => if String.eqb k k' then v else assoc k rest
  end.

Fixpoint assoc_set (k : string) (v : value) (fields : list (string * value))
  : list (string * value) :=
  match fields with
  | [] => [(k, v)]
  | (k', v') :: rest =>
      if String.eqb k k' then (k, v) :: rest else (k', v') :: assoc_set k v rest
  end.

(** [v?.k]: [undefined] on [null]/[undefined], and on a primitive, which
    has no own property of the names read here. *)
Definition get (v : value) (k : string) : value :=
  match v with
  | Obj fields => assoc k fields
  | _ => Undefined
  end.

(** [v.k = x] on an object.  ([null] is an object for [typeof] but has no
    properties; the one assignment modelled here is never reached with it.) *)
Definition set (v : value) (k : string) (x : value) : value :=
  match v with
  | Obj fields => Obj (assoc_set k x fields)
  | _ => v
  end.

(** [v === n] against a numeric literal: no coercion. *)
Definition strict_eq_num (v : value) (n : Q) : bool :=
  match v with Num q => Qeq_bool q n | _ => false end.

(** [String.prototype.toLowerCase] on the ASCII letters; the other bytes
    are kept. *)
Definition lower_ascii (c : ascii) : ascii :=
  let n := nat_of_ascii c in
  if ((65 <=? n) && (n <=? 90))%nat then ascii_of_nat (n + 32) else c.

Fixpoint toLowerCase (s : string) : string :=
  match s with
  | EmptyString => EmptyString
  | String c rest => String (lower_ascii c) (toLowerCase rest)
  end.

(** [hay.includes(needle)] *)
Fixpoint includes (hay needle : string) : bool :=
  String.prefix needle hay
  || match hay with
     | EmptyString => false
     | String _ rest => includes rest needle
     end.

End Js.

(** ** utils/constants.js *)

Module Constants.

(** The profile object the form edits and submits. *)
Record Profile : Type := mkProfile {
  height_cm : Z;
  weight_kg : Z;
  activity_level : Z;
  exercise_freq_per_week : Z;
  diabetic_type : string
}.

Definition DEFAULT_PROFILE : Profile :=
  {| height_cm := 170;
     weight_kg := 70;
     activity_level := 2;
     exercise_freq_per_week := 2;
     diabetic_type := "type2" |}.

Record MealType : Type := mkMealType { key : string; label : string }.

Definition MEAL_TYPES : list MealType :=
  [ mkMealType "breakfast" "Breakfast";
    mkMealType "lunch" "Lunch";
    mkMealType "dinner" "Dinner";
    mkMealType "snacks" "Snacks" ].

End Constants.

(** ** components/ProfileForm.jsx *)

Module ProfileForm.
Import Constants.

(** The value of an [<input type="number">]: the empty string, or the text
    of a number. *)
Inductive field : Type :=
| Blank
| Entered (q : Q).

(** [!f]: only the empty string is falsy (the text "0" is truthy). *)
Definition is_blank (f : field) : bool :=
  match f with Blank => true | Entered _ => false end.

(** [Number(f)], also the coercion [<] and [>] apply to the text. *)
Definition Number (f : field) : Q :=
  match f with Blank => 0 | Entered q => q end.

Record Errors : Type := mkErrors {
  height : option string;
  weight : option string
}.

Definition newErrors (heightFt weightLbs : field) : Errors :=
  {| height :=
       if is_blank heightFt || Js.lt (Number heightFt) 3 || Js.gt (Number heightFt) 8
       then Some "Please enter a valid height" else None;
     weight :=
       if is_blank weightLbs || Js.lt (Number weightLbs) 50 || Js.gt (Number weightLbs) 700
       then Some "Please enter a valid weight" else None |}.

(** [Object.keys(newErrors).length === 0] *)
Definition no_keys (e : Errors) : bool :=
  match height e, weight e with
  | None, None => true
  | _, _ => false
  end.

(** [validate]: the inches field is not looked at. *)
Definition validate (heightFt heightIn weightLbs : field) : bool :=
  no_keys (newErrors heightFt weightLbs).

(** [handleSubmit]: [Some p] when [onSubmit p] is called, [None] when the
    form only shows its errors. *)
Definition handleSubmit (profile : Profile) (heightFt heightIn weightLbs : field)
  : option Profile :=
  if validate heightFt heightIn weightLbs then
    let totalInches :=
      (Number heightFt * 12 + (if is_blank heightIn then 0 else Number heightIn))%Q in
    let heightCm := Js.Math_round (totalInches * (254 # 100))%Q in
    let weightKg := Js.Math_round (Number weightLbs / (220462 # 100000))%Q in
    Some {| height_cm := heightCm;
            weight_kg := weightKg;
            activity_level := activity_level profile;
            exercise_freq_per_week := exercise_freq_per_week profile;
            diabetic_type := diabetic_type profile |}
  else None.

End ProfileForm.

(** ** components/MealPlan.jsx *)

Module MealPlan.
Import Constants.

(** One meal of the plan: the backend's [total_carbs] is a JSON number when
    the field is present. *)
Record MealData : Type := mkMealData {
  total_carbs : option Q
}.

(** The [mealPlan] prop: the meals are keyed by meal type, either under a
    nested [meal_plan] object or on the object itself. *)
Record MealPlanObj : Type := mkMealPlanObj {
  meal_plan : option (gmap string MealData);
  own : gmap string MealData
}.

(** [mealPlan.meal_plan?.[key] || mealPlan[key]] *)
Definition mealData (mealPlan : MealPlanObj) (key : string) : option MealData :=
  match meal_plan mealPlan with
  | Some nested =>
      match nested !! key with
      | Some d => Some d
      | None => own mealPlan !! key
      end
  | None => own mealPlan !! key
  end.

(** [mealData?.total_carbs || 0]: a missing meal, a missing field and the
    falsy number 0 all give 0. *)
Definition carbs_or_zero (d : option MealData) : Q :=
  match d with
  | Some d =>
      match total_carbs d with
      | Some q => if Qeq_bool q 0 then 0%Q else q
      | None => 0%Q
      end
  | None => 0%Q
  end.

(** [MEAL_TYPES.reduce((sum, meal) => ..., 0)] *)
Definition totalCarbs (mealPlan : MealPlanObj) : Q :=
  fold_left
    (fun sum meal => (sum + carbs_or_zero (mealData mealPlan (key meal)))%Q)
    MEAL_TYPES 0%Q.

(** [totalCarbs <= dailyCarbsLimit]; the limit is
    [healthMetrics?.daily_carbs_limit], so it can be [undefined], and a
    comparison with [undefined] is false. *)
Definition within_limit (total : Q) (dailyCarbsLimit : option Q) : bool :=
  match dailyCarbsLimit with
  | Some l => Js.le total l
  | None => false
  end.

Inductive Indicator : Type :=
| WithinDailyCarbLimit
| ExceedsDailyCarbLimit.

(** The daily summary of the rendered card. *)
Record Summary : Type := mkSummary {
  shown_total : Q;
  shown_limit : option Q;
  bar_green : bool;
  indicator : Indicator
}.

(** The component: [None] is the [null] it returns for a missing plan. *)
Definition MealPlan (mealPlan : option MealPlanObj) (dailyCarbsLimit : option Q)
  : option Summary :=
  match mealPlan with
  | None => None
  | Some mealPlan =>
      let totalCarbs := totalCarbs mealPlan in
      Some {| shown_total := totalCarbs;
              shown_limit := dailyCarbsLimit;
              bar_green := within_limit totalCarbs dailyCarbsLimit;
              indicator :=
                if within_limit totalCarbs dailyCarbsLimit
                then WithinDailyCarbLimit else ExceedsDailyCarbLimit |}
  end.



(** A plan with a nested dinner that shadows the top-level one, a lunch of
    45.5 g and a snack without [total_carbs]. *)
Definition sample_plan : MealPlanObj :=
  {| meal_plan := Some (<["dinner" := mkMealData (Some 40%Q)]> ∅);
     own := <["breakfast" := mkMealData (Some 30%Q)]>
            (<["lunch" := mkMealData (Some (91 # 2)%Q)]>
            (<["dinner" := mkMealData (Some 999%Q)]>
            (<["snacks" := mkMealData None]> ∅))) |}.


End MealPlan.

(** ** services/api.js: the response interceptor's error handler *)

Module Api.

Record Response : Type := mkResponse {
  status : Z;
  data : Js.value
}.

(** The rejected axios error: [response] is absent when the request never
    got an answer (network failure, timeout). *)
Record AxiosError : Type := mkAxiosError {
  response : option Response;
  message : Js.value
}.

Definition USAGE_LIMIT_MESSAGE : string :=
  "⚠️ AI Service Usage Limit Reached. Please try again later.".

(** [error.response?.data?.detail] *)
Definition detail (error : AxiosError) : Js.value :=
  match response error with
  | Some r => Js.get (data r) "detail"
  | None => Js.Undefined
  end.

(** [error.response?.data?.detail || error.message] *)
Definition original_message (error : AxiosError) : Js.value :=
  Js.or (detail error) (message error).

Definition mentions_quota (s : string) : bool :=
  Js.includes (Js.toLowerCase s) "quota"
  || Js.includes (Js.toLowerCase s) "limit"
  || Js.includes (Js.toLowerCase s) "resource exhausted".

Definition status_is_429 (error : AxiosError) : bool :=
  match response error with
  | Some r => status r =? 429
  | None => false
  end.

(** The three searches run only when [typeof errorMessage === 'string']. *)
Definition isQuotaError (error : AxiosError) : bool :=
  status_is_429 error
  || match original_message error with
     | Js.Str s => mentions_quota s
     | _ => false
     end.

(** [errorMessage] after the quota check. *)
Definition errorMessage (error : AxiosError) : Js.value :=
  if isQuotaError error then Js.Str USAGE_LIMIT_MESSAGE else original_message error.

(** The error handler: the error it rejects with, after its writes.  A falsy
    [data] is replaced by a fresh object; [detail] is written only when
    [data] is then an object; without a response the message is replaced. *)
Definition on_rejected (error : AxiosError) : AxiosError :=
  match response error with
  | Some r =>
      let data1 := if Js.truthy (data r) then data r else Js.Obj [] in
      let data2 :=
        if Js.typeof_object data1
        then Js.set data1 "detail" (errorMessage error)
        else data1 in
      {| response := Some {| status := status r; data := data2 |};
         message := message error |}
  | None =>
      {| response := None; message := errorMessage error |}
  end.

(** What a caller's [catch] finds in the slot the handler writes to:
    [err.response.data.detail] when there is a response, [err.message]
    otherwise. *)
Definition propagated (error : AxiosError) : Js.value :=
  match response error with
  | Some _ => detail error
  | None => message error
  end.

(** The responses whose body the handler can write to: no body, or a JSON
    object. *)
Definition writable_body (error : AxiosError) : bool :=
  match response error with
  | Some r => negb (Js.truthy (data r)) || Js.typeof_object (data r)
  | None => true
  end.

End Api.

(** ** App.jsx: the wizard's steps *)

Module App.

Module STEPS.
Definition START : Q := 0.
Definition PROFILE : Q := 1.
Definition CARE_MODE : Q := 2.
Definition DASHBOARD : Q := 3.
Definition METRICS : Q := 4.
Definition MEAL_PLAN : Q := 5.
End STEPS.

(** [handleBack]: the value of the [currentStep] state after the callback.
    The state is loaded from local storage, so it can be any JSON value;
    [setCurrentStep] is the only state the callback writes. *)
Definition handleBack (currentStep : Js.value) : Js.value :=
  if Js.strict_eq_num currentStep STEPS.MEAL_PLAN then Js.Num STEPS.METRICS
  else if Js.strict_eq_num currentStep STEPS.METRICS then Js.Num STEPS.DASHBOARD
  else if Js.strict_eq_num currentStep STEPS.DASHBOARD then Js.Num STEPS.CARE_MODE
  else if Js.strict_eq_num currentStep STEPS.CARE_MODE then Js.Num STEPS.PROFILE
  else if Js.strict_eq_num currentStep STEPS.PROFILE then Js.Num STEPS.START
  else currentStep.

(** The named steps, and the step before each, for stating what
    [handleBack] does. *)
Inductive Step : Type :=
| Start | Profile | CareMode | Dashboard | Metrics | MealPlanStep.

Definition code (s : Step) : Q :=
  match s with
  | Start => STEPS.START
  | Profile => STEPS.PROFILE
  | CareMode => STEPS.CARE_MODE
  | Dashboard => STEPS.DASHBOARD
  | Metrics => STEPS.METRICS
  | MealPlanStep => STEPS.MEAL_PLAN
  end.

Definition previous (s : Step) : Step :=
  match s with
  | MealPlanStep => Metrics
  | Metrics => Dashboard
  | Dashboard => CareMode
  | CareMode => Profile
  | Profile => Start
  | Start => Start
  end.

(** The step a state value names, if any. *)
Definition step_of (v : Js.value) : option Step :=
  find (fun s => Js.strict_eq_num v (code s))
       [Start; Profile; CareMode; Dashboard; Metrics; MealPlanStep].

End App.

(** ** The backend's HealthMetricsCalculator *)

Module HealthMetricsCalculator.

(** Modelled from the spec: the backend that holds the calculator is not
    part of the frontend sources embedded above, so the data model below
    follows section 3 of the specification field by field. *)
















End HealthMetricsCalculator.

(** ** JavaScript numbers that need not be finite *)

Module JsNumber.

(** The value of an arithmetic expression: a finite number, an infinity or
    NaN.  Zero is the positive zero. *)
Inductive number : Type :=
| Finite (q : Q)
| PosInfinity
| NegInfinity
| NaN.

(** [x / y] on finite operands. *)
Definition div (x y : Q) : number :=
  if Qeq_bool y 0 then
    if Qeq_bool x 0 then NaN
    else if Js.lt 0 x then PosInfinity else NegInfinity
  else Finite (x / y).

(** [n * k] for a finite positive [k]. *)
Definition times_pos (n : number) (k : Q) : number :=
  match n with
  | Finite q => Finite (q * k)
  | other => other
  end.

(** [Math.min(n, k)] for a finite [k]. *)
Definition Math_min (n : number) (k : Q) : number :=
  match n with
  | Finite q => Finite (if Js.le q k then q else k)
  | PosInfinity => Finite k
  | NegInfinity => NegInfinity
  | NaN => NaN
  end.

End JsNumber.

(** ** components/MealPlan.jsx: the progress bar *)

Module ProgressBar.
Import JsNumber.

(** [Math.min((totalCarbs / dailyCarbsLimit) * 100, 100)], the percentage of
    the bar's width; an [undefined] limit converts to NaN. *)
Definition width (totalCarbs : Q) (dailyCarbsLimit : option Q) : number :=
  match dailyCarbsLimit with
  | Some l => Math_min (times_pos (div totalCarbs l) 100) 100
  | None => NaN
  end.

End ProgressBar.

(** ** A meal plan with one more entry *)

Module MealPlanUpdate.
Import MealPlan.



End MealPlanUpdate.

(** ** components/CareModeSelection.jsx *)

Module CareModeSelection.

Record Mode : Type := mkMode { id : string; title : string }.

Definition MODES : list Mode :=
  [ mkMode "prediabetic" "Lifestyle Balance";
    mkMode "type2" "Stable Glycemic Control";
    mkMode "type1" "Precision Protection" ].

(** [handleSubmit]: the argument of [onSelect], if it is called;
    [selectedMode] is [null] or the id a card set. *)
Definition handleSubmit (selectedMode : option string) : option string :=
  match selectedMode with
  | Some m => if String.eqb m "" then None else Some m
  | None => None
  end.

End CareModeSelection.

(** ** components/Dashboard.jsx *)

Module Dashboard.
Import Constants.

Definition getModeName (type : Js.value) : string :=
  match type with
  | Js.Str t =>
      if String.eqb t "type1" then "Precision Protection"
      else if String.eqb t "type2" then "Stable Glycemic Control"
      else if String.eqb t "prediabetic" then "Lifestyle Balance"
      else "General Health"
  | _ => "General Health"
  end.

(** [safeProfile.weight_kg ? Math.round(safeProfile.weight_kg * 2.20462) : '--'];
    [None] is the placeholder, also shown for a missing profile. *)
Definition weightLbs (profile : option Profile) : option Z :=
  match profile with
  | Some p =>
      if weight_kg p =? 0 then None
      else Some (Js.Math_round (inject_Z (weight_kg p) * (220462 # 100000))%Q)
  | None => None
  end.

(** The two numbers of the workout range
    [`${n}-${Math.min(n + 1, 7)} times`]; [None] is the placeholder of a
    missing profile. *)
Definition activityLevel (profile : option Profile) : option (Z * Z) :=
  match profile with
  | Some p =>
      Some (exercise_freq_per_week p, Z.min (exercise_freq_per_week p + 1) 7)
  | None => None
  end.

End Dashboard.

(** ** The [catch] blocks that choose the message shown for a failed request *)

Module Catch.
Import Api.

(** ChatBox.jsx, [sendMessage]:
    [error.response?.data?.detail || error.message || 'Sorry, ...'] *)
Definition ChatBox_errorMessage (error : AxiosError) : Js.value :=
  Js.or (Js.or (detail error) (message error))
        (Js.Str "Sorry, something went wrong. Please try again later.").

(** hooks/useChat.js, [sendMessage]:
    [err.response?.data?.detail || 'An error occurred, ...'] *)
Definition useChat_errorMessage (err : AxiosError) : Js.value :=
  Js.or (detail err) (Js.Str "An error occurred, please try again later").

(** App.jsx, [handleCareModeSelect]:
    [err.response?.data?.detail || 'Registration failed, ...'] *)
Definition registration_error (err : AxiosError) : Js.value :=
  Js.or (detail err) (Js.Str "Registration failed, please try again later").

(** App.jsx, [handleGenerateMealPlan]:
    [err.message || err.response?.data?.detail || 'Failed to generate meal plan'] *)
Definition generation_error (err : AxiosError) : Js.value :=
  Js.or (Js.or (message err) (detail err)) (Js.Str "Failed to generate meal plan").

End Catch.

(** ** services/api.js: [recipeApi.search] *)

Module RecipeApi.

(** The [filters] argument; a field that is not given is [undefined]. *)
Record Filters : Type := mkFilters {
  category : Js.value;
  maxCarbs : Js.value;
  maxCookingTime : Js.value;
  giLevel : Js.value;
  limit : Js.value
}.

(** [if (v) params.append(name, v)] *)
Definition append_if (name : string) (v : Js.value)
    (params : list (string * Js.value)) : list (string * Js.value) :=
  if Js.truthy v then params ++ [(name, v)] else params.

(** The entries of the [URLSearchParams] that [search] builds, in the order
    of the appends; each value is sent in its string form. *)
Definition search_params (filters : Filters) : list (string * Js.value) :=
  append_if "limit" (limit filters)
    (append_if "gi_level" (giLevel filters)
      (append_if "max_cooking_time" (maxCookingTime filters)
        (append_if "max_carbs" (maxCarbs filters)
          (append_if "category" (category filters) [])))).

(** [search()] without an argument: [filters = {}]. *)
Definition no_filters : Filters :=
  {| category := Js.Undefined; maxCarbs := Js.Undefined;
     maxCookingTime := Js.Undefined; giLevel := Js.Undefined;
     limit := Js.Undefined |}.

End RecipeApi.

(** ** components/ProfileForm.jsx: the form's own state *)

Module ProfileFormState.
Import Constants ProfileForm.

(** The values of the workout select: [[0, 1, 2, 3, 4, 5, 6, 7].map(...)]. *)
Definition WORKOUT_OPTIONS : list Z := [0; 1; 2; 3; 4; 5; 6; 7].

(** [{ ...prev, [field]: value }] for a numeric field of the profile. *)
Definition with_field (field : string) (value : Z) (prev : Profile) : Profile :=
  if String.eqb field "height_cm" then
    {| height_cm := value; weight_kg := weight_kg prev;
       activity_level := activity_level prev;
       exercise_freq_per_week := exercise_freq_per_week prev;
       diabetic_type := diabetic_type prev |}
  else if String.eqb field "weight_kg" then
    {| height_cm := height_cm prev; weight_kg := value;
       activity_level := activity_level prev;
       exercise_freq_per_week := exercise_freq_per_week prev;
       diabetic_type := diabetic_type prev |}
  else if String.eqb field "activity_level" then
    {| height_cm := height_cm prev; weight_kg := weight_kg prev;
       activity_level := value;
       exercise_freq_per_week := exercise_freq_per_week prev;
       diabetic_type := diabetic_type prev |}
  else if String.eqb field "exercise_freq_per_week" then
    {| height_cm := height_cm prev; weight_kg := weight_kg prev;
       activity_level := activity_level prev;
       exercise_freq_per_week := value;
       diabetic_type := diabetic_type prev |}
  else prev.

(** [if (errors[field]) setErrors(prev => ({ ...prev, [field]: null }))] *)
Definition clear_error (field : string) (errors : Errors) : Errors :=
  if String.eqb field "height" then {| height := None; weight := weight errors |}
  else if String.eqb field "weight" then {| height := height errors; weight := None |}
  else errors.

(** [handleChange]: the [profile] and [errors] states after the call. *)
Definition handleChange (field : string) (value : Z) (st : Profile * Errors)
  : Profile * Errors :=
  (with_field field value (fst st), clear_error field (snd st)).

(** The [profile] state after the user picked these workout options in
    turn; the select is the only control wired to [handleChange]. *)
Definition profile_after (selections : list Z) : Profile :=
  fst (fold_left
         (fun st value => handleChange "exercise_freq_per_week" value st)
         selections
         (DEFAULT_PROFILE, {| height := None; weight := None |})).

End ProfileFormState.

(** ** App.jsx: the wizard as a transition system

    The first [App] of the file (the one with persistence), started on an
    empty local storage.  An event is a click on a control that the current
    view renders, the settling of a request made earlier, or a reload of the
    page.  [enabled] does not look at [disabled] attributes or at the loading
    overlay, so it admits every run of the browser and some more. *)

Module Wizard.
Import Constants.

(** The React state of [App], and the requests it has made: the profiles
    passed to [userApi.register] (latest first) and the number of requests
    of each kind that have not settled. *)
Record State : Type := mkState {
  currentStep : Js.value;
  userId : Js.value;
  pendingProfile : option Profile;
  fullProfile : option Profile;
  healthMetrics : Js.value;
  mealPlan : Js.value;
  loading : bool;
  error : Js.value;
  isChatOpen : bool;
  register_calls : list Profile;
  pending_register : nat;
  pending_daily : nat;
  pending_generate : nat
}.

Definition initial : State :=
  {| currentStep := Js.Num App.STEPS.START;
     userId := Js.Null;
     pendingProfile := None;
     fullProfile := None;
     healthMetrics := Js.Null;
     mealPlan := Js.Null;
     loading := false;
     error := Js.Null;
     isChatOpen := false;
     register_calls := [];
     pending_register := 0;
     pending_daily := 0;
     pending_generate := 0 |}.

Definition setCurrentStep (v : Js.value) (s : State) : State :=
  {| currentStep := v;
     userId := userId s;
     pendingProfile := pendingProfile s;
     fullProfile := fullProfile s;
     healthMetrics := healthMetrics s;
     mealPlan := mealPlan s;
     loading := loading s;
     error := error s;
     isChatOpen := isChatOpen s;
     register_calls := register_calls s;
     pending_register := pending_register s;
     pending_daily := pending_daily s;
     pending_generate := pending_generate s |}.

Definition setUserId (v : Js.value) (s : State) : State :=
  {| currentStep := currentStep s;
     userId := v;
     pendingProfile := pendingProfile s;
     fullProfile := fullProfile s;
     healthMetrics := healthMetrics s;
     mealPlan := mealPlan s;
     loading := loading s;
     error := error s;
     isChatOpen := isChatOpen s;
     register_calls := register_calls s;
     pending_register := pending_register s;
     pending_daily := pending_daily s;
     pending_generate := pending_generate s |}.

Definition setPendingProfile (v : option Profile) (s : State) : State :=
  {| currentStep := currentStep s;
     userId := userId s;
     pendingProfile := v;
     fullProfile := fullProfile s;
     healthMetrics := healthMetrics s;
     mealPlan := mealPlan s;
     loading := loading s;
     error := error s;
     isChatOpen := isChatOpen s;
     register_calls := register_calls s;
     pending_register := pending_register s;
     pending_daily := pending_daily s;
     pending_generate := pending_generate s |}.

Definition setFullProfile (v : option Profile) (s : State) : State :=
  {| currentStep := currentStep s;
     userId := userId s;
     pendingProfile := pendingProfile s;
     fullProfile := v;
     healthMetrics := healthMetrics s;
     mealPlan := mealPlan s;
     loading := loading s;
     error := error s;
     isChatOpen := isChatOpen s;
     register_calls := register_calls s;
     pending_register := pending_register s;
     pending_daily := pending_daily s;
     pending_generate := pending_generate s |}.

Definition setHealthMetrics (v : Js.value) (s : State) : State :=
  {| currentStep := currentStep s;
     userId := userId s;
     pendingProfile := pendingProfile s;
     fullProfile := fullProfile s;
     healthMetrics := v;
     mealPlan := mealPlan s;
     loading := loading s;
     error := error s;
     isChatOpen := isChatOpen s;
     register_calls := register_calls s;
     pending_register := pending_register s;
     pending_daily := pending_daily s;
     pending_generate := pending_generate s |}.

Definition setMealPlan (v : Js.value) (s : State) : State :=
  {| currentStep := currentStep s;
     userId := userId s;
     pendingProfile := pendingProfile s;
     fullProfile := fullProfile s;
     healthMetrics := healthMetrics s;
     mealPlan := v;
     loading := loading s;
     error := error s;
     isChatOpen := isChatOpen s;
     register_calls := register_calls s;
     pending_register := pending_register s;
     pending_daily := pending_daily s;
     pending_generate := pending_generate s |}.

Definition setLoading (v : bool) (s : State) : State :=
  {| currentStep := currentStep s;
     userId := userId s;
     pendingProfile := pendingProfile s;
     fullProfile := fullProfile s;
     healthMetrics := healthMetrics s;
     mealPlan := mealPlan s;
     loading := v;
     error := error s;
     isChatOpen := isChatOpen s;
     register_calls := register_calls s;
     pending_register := pending_register s;
     pending_daily := pending_daily s;
     pending_generate := pending_generate s |}.

Definition setError (v : Js.value) (s : State) : State :=
  {| currentStep := currentStep s;
     userId := userId s;
     pendingProfile := pendingProfile s;
     fullProfile := fullProfile s;
     healthMetrics := healthMetrics s;
     mealPlan := mealPlan s;
     loading := loading s;
     error := v;
     isChatOpen := isChatOpen s;
     register_calls := register_calls s;
     pending_register := pending_register s;
     pending_daily := pending_daily s;
     pending_generate := pending_generate s |}.

Definition setIsChatOpen (v : bool) (s : State) : State :=
  {| currentStep := currentStep s;
     userId := userId s;
     pendingProfile := pendingProfile s;
     fullProfile := fullProfile s;
     healthMetrics := healthMetrics s;
     mealPlan := mealPlan s;
     loading := loading s;
     error := error s;
     isChatOpen := v;
     register_calls := register_calls s;
     pending_register := pending_register s;
     pending_daily := pending_daily s;
     pending_generate := pending_generate s |}.

Definition with_register_calls (v : list Profile) (s : State) : State :=
  {| currentStep := currentStep s;
     userId := userId s;
     pendingProfile := pendingProfile s;
     fullProfile := fullProfile s;
     healthMetrics := healthMetrics s;
     mealPlan := mealPlan s;
     loading := loading s;
     error := error s;
     isChatOpen := isChatOpen s;
     register_calls := v;
     pending_register := pending_register s;
     pending_daily := pending_daily s;
     pending_generate := pending_generate s |}.

Definition with_pending_register (v : nat) (s : State) : State :=
  {| currentStep := currentStep s;
     userId := userId s;
     pendingProfile := pendingProfile s;
     fullProfile := fullProfile s;
     healthMetrics := healthMetrics s;
     mealPlan := mealPlan s;
     loading := loading s;
     error := error s;
     isChatOpen := isChatOpen s;
     register_calls := register_calls s;
     pending_register := v;
     pending_daily := pending_daily s;
     pending_generate := pending_generate s |}.

Definition with_pending_daily (v : nat) (s : State) : State :=
  {| currentStep := currentStep s;
     userId := userId s;
     pendingProfile := pendingProfile s;
     fullProfile := fullProfile s;
     healthMetrics := healthMetrics s;
     mealPlan := mealPlan s;
     loading := loading s;
     error := error s;
     isChatOpen := isChatOpen s;
     register_calls := register_calls s;
     pending_register := pending_register s;
     pending_daily := v;
     pending_generate := pending_generate s |}.

Definition with_pending_generate (v : nat) (s : State) : State :=
  {| currentStep := currentStep s;
     userId := userId s;
     pendingProfile := pendingProfile s;
     fullProfile := fullProfile s;
     healthMetrics := healthMetrics s;
     mealPlan := mealPlan s;
     loading := loading s;
     error := error s;
     isChatOpen := isChatOpen s;
     register_calls := register_calls s;
     pending_register := pending_register s;
     pending_daily := pending_daily s;
     pending_generate := v |}.

(** [{ ...pendingProfile, diabetic_type: diabeticType }] *)
Definition completeProfile (pendingProfile : Profile) (diabeticType : string) : Profile :=
  {| height_cm := height_cm pendingProfile;
     weight_kg := weight_kg pendingProfile;
     activity_level := activity_level pendingProfile;
     exercise_freq_per_week := exercise_freq_per_week pendingProfile;
     diabetic_type := diabeticType |}.

(** [onStart] of the start page. *)
Definition onStart (s : State) : State :=
  setCurrentStep (Js.Num App.STEPS.PROFILE) s.

Definition handleProfileSubmit (profileData : Profile) (s : State) : State :=
  setCurrentStep (Js.Num App.STEPS.CARE_MODE) (setPendingProfile (Some profileData) s).

(** [handleCareModeSelect] up to its [await]: the request is made. *)
Definition handleCareModeSelect (diabeticType : string) (s : State) : State :=
  match pendingProfile s with
  | None => s
  | Some p =>
      let complete := completeProfile p diabeticType in
      with_pending_register (S (pending_register s))
        (with_register_calls (complete :: register_calls s)
          (setFullProfile (Some complete)
            (setError Js.Null (setLoading true s))))
  end.

(** The [catch] and [finally] of [handleCareModeSelect]. *)
Definition register_catch (shown : Js.value) (s : State) : State :=
  setLoading false (setCurrentStep (Js.Num App.STEPS.CARE_MODE) (setError shown s)).

(** [handleCareModeSelect] after the [await], for a fulfilled request.
    Reading [user_id] off a [null] reply throws a TypeError, which has no
    response, so the [catch] shows its fallback. *)
Definition register_fulfilled (response : Js.value) (s : State) : State :=
  let s := with_pending_register (Nat.pred (pending_register s)) s in
  match response with
  | Js.Undefined | Js.Null =>
      register_catch (Js.Str "Registration failed, please try again later") s
  | _ =>
      setLoading false
        (with_pending_daily (S (pending_daily s))
          (setCurrentStep (Js.Num App.STEPS.DASHBOARD)
            (setHealthMetrics (Js.get response "health_metrics")
              (setUserId (Js.get response "user_id") s))))
  end.

(** ... and for a rejected one; [err] is the error as the [catch] sees it. *)
Definition register_rejected (err : Api.AxiosError) (s : State) : State :=
  register_catch (Catch.registration_error err)
    (with_pending_register (Nat.pred (pending_register s)) s).

(** The [then] of the background [generateDaily]; on a [null] reply the
    callback throws and the [catch] only logs. *)
Definition daily_fulfilled (mealResponse : Js.value) (s : State) : State :=
  let s := with_pending_daily (Nat.pred (pending_daily s)) s in
  match mealResponse with
  | Js.Undefined | Js.Null => s
  | _ => setMealPlan (Js.get mealResponse "meal_plan") s
  end.

Definition daily_rejected (s : State) : State :=
  with_pending_daily (Nat.pred (pending_daily s)) s.

(** [handleGenerateMealPlan] up to its [await]. *)
Definition handleGenerateMealPlan (s : State) : State :=
  if Js.truthy (userId s) then
    with_pending_generate (S (pending_generate s))
      (setError Js.Null (setLoading true s))
  else s.

(** A reply that the [try] block of [handleGenerateMealPlan] does not throw
    on: not [null], and without a truthy [meal_plan.error]. *)
Definition accepted (response : Js.value) : bool :=
  match response with
  | Js.Undefined | Js.Null => false
  | _ => negb (Js.truthy (Js.get (Js.get response "meal_plan") "error"))
  end.

(** [handleGenerateMealPlan] after the [await], on an accepted reply. *)
Definition generate_fulfilled (response : Js.value) (s : State) : State :=
  setLoading false
    (setCurrentStep (Js.Num App.STEPS.MEAL_PLAN)
      (setMealPlan (Js.get response "meal_plan")
        (with_pending_generate (Nat.pred (pending_generate s)) s))).

(** ... and on anything thrown: a rejected request, the [Error] thrown for a
    reply that carries an error, or a TypeError. *)
Definition generate_thrown (err : Api.AxiosError) (s : State) : State :=
  setLoading false
    (setError (Catch.generation_error err)
      (with_pending_generate (Nat.pred (pending_generate s)) s)).

(** [handleReset]: [loading] is not written, and no request is cancelled. *)
Definition handleReset (s : State) : State :=
  setIsChatOpen false
    (setError Js.Null
      (setMealPlan Js.Null
        (setHealthMetrics Js.Null
          (setFullProfile None
            (setPendingProfile None
              (setUserId Js.Null
                (setCurrentStep (Js.Num App.STEPS.START) s))))))).

Definition handleBack (s : State) : State :=
  setCurrentStep (App.handleBack (currentStep s)) s.

(** [loadState] on what the persistence effects stored: a value comes back
    as it was, except [undefined], which is stored as a text that does not
    parse, so that the default is taken. *)
Definition loadState (stored default : Js.value) : Js.value :=
  match stored with
  | Js.Undefined => default
  | _ => stored
  end.

(** The component after the page is loaded again: the six persisted states
    are read back, the others start afresh, and the requests of the old page
    are gone. *)
Definition reload (s : State) : State :=
  {| currentStep := loadState (currentStep s) (Js.Num App.STEPS.START);
     userId := loadState (userId s) Js.Null;
     pendingProfile := pendingProfile s;
     fullProfile := fullProfile s;
     healthMetrics := loadState (healthMetrics s) Js.Null;
     mealPlan := loadState (mealPlan s) Js.Null;
     loading := false;
     error := Js.Null;
     isChatOpen := false;
     register_calls := register_calls s;
     pending_register := 0;
     pending_daily := 0;
     pending_generate := 0 |}.

(** What [renderStepContent] and the widget below it put on the screen. *)
Inductive View : Type :=
| StartPageView
| ProfileFormView
| CareModeSelectionView
| DashboardView (chat_widget : bool)
| DefaultView (error_banner metrics_step meal_plan_step : bool).

Definition render (s : State) : View :=
  if Js.strict_eq_num (currentStep s) App.STEPS.START then StartPageView
  else if Js.strict_eq_num (currentStep s) App.STEPS.PROFILE then ProfileFormView
  else if Js.strict_eq_num (currentStep s) App.STEPS.CARE_MODE then CareModeSelectionView
  else if Js.strict_eq_num (currentStep s) App.STEPS.DASHBOARD
  then DashboardView (Js.truthy (userId s))
  else DefaultView
         (Js.truthy (error s))
         (Js.strict_eq_num (currentStep s) App.STEPS.METRICS
          && Js.truthy (healthMetrics s))
         (Js.strict_eq_num (currentStep s) App.STEPS.MEAL_PLAN
          && Js.truthy (mealPlan s)).

Inductive Event : Type :=
| ClickGetStarted
| SubmitProfileForm (selections : list Z) (heightFt heightIn weightLbs : ProfileForm.field)
| ClickBack
| ContinueCareMode (selectedMode : option string)
| RegisterFulfilled (response : Js.value)
| RegisterRejected (err : Api.AxiosError)
| DailyPlanFulfilled (mealResponse : Js.value)
| DailyPlanRejected
| ClickGenerate
| GenerateFulfilled (response : Js.value)
| GenerateThrown (err : Api.AxiosError)
| ClickStartOver
| ChatMealPlanUpdate (newPlan : Js.value)
| ToggleChat
| CloseChat
| Reload.

Definition one_of (options : list Z) (n : Z) : bool := existsb (Z.eqb n) options.

Definition mode_id (m : string) : bool :=
  existsb (String.eqb m) (map CareModeSelection.id CareModeSelection.MODES).

(** Which events the state admits: the controls of the current view, a
    request that is still pending, and, at any time, the reply of the chat
    assistant (it may come after the chat box is gone). *)
Definition enabled (s : State) (e : Event) : bool :=
  match e, render s with
  | ClickGetStarted, StartPageView => true
  | SubmitProfileForm selections _ _ _, ProfileFormView =>
      forallb (one_of ProfileFormState.WORKOUT_OPTIONS) selections
  | ClickBack, (ProfileFormView | CareModeSelectionView) => true
  | ClickBack, DefaultView _ metrics _ => metrics
  | ContinueCareMode None, CareModeSelectionView => true
  | ContinueCareMode (Some m), CareModeSelectionView => mode_id m
  | RegisterFulfilled _, _ | RegisterRejected _, _ => negb (pending_register s =? 0)%nat
  | DailyPlanFulfilled _, _ | DailyPlanRejected, _ => negb (pending_daily s =? 0)%nat
  | ClickGenerate, DefaultView _ metrics _ => metrics
  | GenerateFulfilled response, _ =>
      negb (pending_generate s =? 0)%nat && accepted response
  | GenerateThrown _, _ => negb (pending_generate s =? 0)%nat
  | ClickStartOver, DashboardView _ => true
  | ClickStartOver, DefaultView _ _ meal_plan => meal_plan
  | ChatMealPlanUpdate _, _ => true
  | Reload, _ => true
  | (ToggleChat | CloseChat), DashboardView chat_widget => chat_widget
  | _, _ => false
  end.

Definition handle (e : Event) (s : State) : State :=
  match e with
  | ClickGetStarted => onStart s
  | SubmitProfileForm selections heightFt heightIn weightLbs =>
      match ProfileForm.handleSubmit (ProfileFormState.profile_after selections)
              heightFt heightIn weightLbs with
      | Some profileData => handleProfileSubmit profileData s
      | None => s
      end
  | ClickBack => handleBack s
  | ContinueCareMode selectedMode =>
      match CareModeSelection.handleSubmit selectedMode with
      | Some diabeticType => handleCareModeSelect diabeticType s
      | None => s
      end
  | RegisterFulfilled response => register_fulfilled response s
  | RegisterRejected err => register_rejected err s
  | DailyPlanFulfilled mealResponse => daily_fulfilled mealResponse s
  | DailyPlanRejected => daily_rejected s
  | ClickGenerate => handleGenerateMealPlan s
  | GenerateFulfilled response => generate_fulfilled response s
  | GenerateThrown err => generate_thrown err s
  | ClickStartOver => handleReset s
  | ChatMealPlanUpdate newPlan => setMealPlan newPlan s
  | ToggleChat => setIsChatOpen (negb (isChatOpen s)) s
  | CloseChat => setIsChatOpen false s
  | Reload => reload s
  end.

(** The states the wizard can be in. *)
Inductive reachable : State -> Prop :=
| reachable_initial : reachable initial
| reachable_step (s : State) (e : Event) :
    reachable s -> enabled s e = true -> reachable (handle e s).

(** Running a list of events, each one only if the state admits it. *)
Definition run (events : list Event) (s : State) : State :=
  fold_left (fun s e => if enabled s e then handle e s else s) events s.

End Wizard.

(** ** What the wizard sends and shows *)

Module WizardSpec.
Import Constants.

(** The views of the four steps a user walks through. *)
Definition WALKED_STEPS : list Js.value :=
  [ Js.Num App.STEPS.START; Js.Num App.STEPS.PROFILE;
    Js.Num App.STEPS.CARE_MODE; Js.Num App.STEPS.DASHBOARD ].

(** A profile as the form can submit it: the default activity level, a
    workout option, and a weight within the converted bounds. *)
Definition from_form (p : Profile) : Prop :=
  activity_level p = 2 /\
  0 <= exercise_freq_per_week p <= 7 /\
  23 <= weight_kg p <= 318.

(** A profile as the wizard can register it: one from the form, with the id
    of a care mode as its diabetic type. *)
Definition registrable (p : Profile) : Prop :=
  from_form p /\
  In (diabetic_type p) (map CareModeSelection.id CareModeSelection.MODES).

(** What holds of every state of the wizard. *)
Record Invariant (s : Wizard.State) : Prop := mkInvariant {
  inv_step : In (Wizard.currentStep s) WALKED_STEPS;
  inv_generate : Wizard.pending_generate s = 0%nat;
  inv_calls : Forall registrable (Wizard.register_calls s);
  inv_pending : forall p, Wizard.pendingProfile s = Some p -> from_form p;
  inv_full : forall f, Wizard.fullProfile s = Some f -> In f (Wizard.register_calls s)
}.

(** A walk from the start page to the dashboard. *)
Definition sample_walk : list Wizard.Event :=
  [ Wizard.ClickGetStarted;
    Wizard.SubmitProfileForm [3] (ProfileForm.Entered 5) (ProfileForm.Entered 7)
      (ProfileForm.Entered 150);
    Wizard.ContinueCareMode (Some "type1");
    Wizard.RegisterFulfilled
      (Js.Obj [("user_id", Js.Str "u1");
               ("health_metrics", Js.Obj [("daily_carbs_limit", Js.Num 130)])]) ].

End WizardSpec.

(** ** components/ChatBox.jsx as a transition system

    [trim] stands for [String.prototype.trim], which the component calls on
    the text; what is proved holds for whatever it returns. *)

Module ChatBox.

Definition SUGGESTED_MESSAGES : list string :=
  [ "I want something light";
    "Any quick meal recommendations?";
    "I am allergic to seafood";
    "What should I have for dinner today?";
    "Recommend some high-protein recipes" ].

Inductive Role : Type := user | assistant.

Record Message : Type := mkMessage {
  role : Role;
  content : Js.value;
  recipes : Js.value;
  type : Js.value;
  isError : bool
}.

(** The state of the component, and what it has asked of the outside: the
    texts passed to [chatApi.sendMessage] and the plans passed to
    [onMealPlanUpdate] (latest first), and the number of chat requests that
    have not settled. *)
Record State : Type := mkState {
  messages : list Message;
  input : string;
  loading : bool;
  showSuggestions : bool;
  sent : list string;
  updates : list Js.value;
  pending : nat
}.

Definition initial : State :=
  {| messages := []; input := ""; loading := false; showSuggestions := true;
     sent := []; updates := []; pending := 0 |}.

Definition userMessage (text : string) : Message :=
  {| role := user; content := Js.Str text; recipes := Js.Undefined;
     type := Js.Undefined; isError := false |}.

Definition aiMessage (response : Js.value) : Message :=
  {| role := assistant;
     content := Js.get response "message";
     recipes := Js.or (Js.get response "recipes") Js.Null;
     type := Js.get response "type";
     isError := false |}.

Definition errorBubble (error : Api.AxiosError) : Message :=
  {| role := assistant; content := Catch.ChatBox_errorMessage error;
     recipes := Js.Undefined; type := Js.Undefined; isError := true |}.

Inductive Event : Type :=
| Type_ (text : string)
| ClickSend
| KeyPress (key : string) (shiftKey : bool)
| ClickSuggestion (index : nat)
| ChatFulfilled (response : Js.value)
| ChatThrown (error : Api.AxiosError)
| ResetFulfilled.

Section WithTrim.

Variable trim : string -> string.

(** [sendMessage] up to its [await]. *)
Definition sendMessage (messageText : string) (s : State) : State :=
  if String.eqb (trim messageText) "" || loading s then s
  else
    {| messages := messages s ++ [userMessage (trim messageText)];
       input := "";
       loading := true;
       showSuggestions := false;
       sent := trim messageText :: sent s;
       updates := updates s;
       pending := S (pending s) |}.

(** [response.type === 'meal_plan' && response.meal_plan] *)
Definition carries_meal_plan (response : Js.value) : bool :=
  match Js.get response "type" with
  | Js.Str t => String.eqb t "meal_plan" && Js.truthy (Js.get response "meal_plan")
  | _ => false
  end.

(** [sendMessage] after the [await], on a reply the [try] block reads
    without throwing. *)
Definition chat_fulfilled (response : Js.value) (s : State) : State :=
  {| messages := messages s ++ [aiMessage response];
     input := input s;
     loading := false;
     showSuggestions := showSuggestions s;
     sent := sent s;
     updates := if carries_meal_plan response
                then Js.get response "meal_plan" :: updates s else updates s;
     pending := Nat.pred (pending s) |}.

(** ... and on anything thrown; [error] is the error as the [catch] sees it. *)
Definition chat_thrown (error : Api.AxiosError) (s : State) : State :=
  {| messages := messages s ++ [errorBubble error];
     input := input s;
     loading := false;
     showSuggestions := showSuggestions s;
     sent := sent s;
     updates := updates s;
     pending := Nat.pred (pending s) |}.

(** [handleReset] after [chatApi.resetChat] has succeeded; when it fails
    the [catch] only logs. *)
Definition reset_fulfilled (s : State) : State :=
  {| messages := []; input := input s; loading := loading s;
     showSuggestions := true; sent := sent s; updates := updates s;
     pending := pending s |}.

Definition setInput (text : string) (s : State) : State :=
  {| messages := messages s; input := text; loading := loading s;
     showSuggestions := showSuggestions s; sent := sent s;
     updates := updates s; pending := pending s |}.

(** [handleKeyPress] *)
Definition handleKeyPress (key : string) (shiftKey : bool) (s : State) : State :=
  if String.eqb key "Enter" && negb shiftKey then sendMessage (input s) s else s.

(** The suggestions on the screen: the first three, while none was used and
    the chat is empty. *)
Definition suggestions (s : State) : list string :=
  if showSuggestions s && (length (messages s) =? 0)%nat
  then firstn 3 SUGGESTED_MESSAGES else [].

(** A reply arrives only for a pending request, and is read without
    throwing when it is not [null]; the reset button is there while the chat
    has messages, so its request can succeed at any time. *)
Definition enabled (s : State) (e : Event) : bool :=
  match e with
  | Type_ _ | ClickSend | KeyPress _ _ | ResetFulfilled => true
  | ClickSuggestion index => (index <? length (suggestions s))%nat
  | ChatFulfilled response =>
      negb (pending s =? 0)%nat
      && match response with Js.Undefined | Js.Null => false | _ => true end
  | ChatThrown _ => negb (pending s =? 0)%nat
  end.

Definition handle (e : Event) (s : State) : State :=
  match e with
  | Type_ text => setInput text s
  | ClickSend => sendMessage (input s) s
  | KeyPress key shiftKey => handleKeyPress key shiftKey s
  | ClickSuggestion index => sendMessage (nth index (suggestions s) "") s
  | ChatFulfilled response => chat_fulfilled response s
  | ChatThrown error => chat_thrown error s
  | ResetFulfilled => reset_fulfilled s
  end.

Inductive reachable : State -> Prop :=
| reachable_initial : reachable initial
| reachable_step (s : State) (e : Event) :
    reachable s -> enabled s e = true -> reachable (handle e s).

(** A bubble the user wrote holds a trimmed, non-empty text. *)
Definition user_bubble_ok (m : Message) : Prop :=
  role m = user ->
  exists text : string,
    content m = Js.Str (trim text) /\ trim text <> "".

(** What holds of every state of the chat box. *)
Record Invariant (s : State) : Prop := mkInvariant {
  inv_pending : pending s = if loading s then 1%nat else 0%nat;
  inv_sent : Forall (fun t => t <> "" /\ exists text, t = trim text) (sent s);
  inv_user : Forall user_bubble_ok (messages s);
  inv_error : Forall (fun m => isError m = true -> Js.truthy (content m) = true)
                (messages s);
  inv_updates : Forall (fun plan => Js.truthy plan = true) (updates s)
}.

End WithTrim.

(** [trim] on the ASCII white space, to run the component on examples. *)
Definition is_space (c : ascii) : bool :=
  let n := nat_of_ascii c in
  ((n =? 32) || ((9 <=? n) && (n <=? 13)))%nat.

Fixpoint trim_start (s : string) : string :=
  match s with
  | String c rest => if is_space c then trim_start rest else s
  | EmptyString => EmptyString
  end.

Fixpoint trim_end (s : string) : string :=
  match s with
  | String c rest =>
      match trim_end rest with
      | EmptyString => if is_space c then EmptyString else String c EmptyString
      | kept => String c kept
      end
  | EmptyString => EmptyString
  end.

Definition trim_ascii (s : string) : string := trim_end (trim_start s).

(** A short session: a blank message, a question, and its reply. *)
Definition sample_session : list Event :=
  [ Type_ "   "; ClickSend;
    Type_ "  low carb dinner? "; KeyPress "Enter" false;
    Type_ "again"; ClickSend;
    ChatFulfilled (Js.Obj [("message", Js.Str "Try grilled salmon.");
                           ("type", Js.Str "chat")]) ].

Definition run (trim : string -> string) (events : list Event) (s : State) : State :=
  fold_left (fun s e => if enabled s e then handle trim e s else s) events s.

End ChatBox.

(** * Properties *)

(** ** ProfileForm: what an accepted submission carries *)

Module ProfileFormFacts.
Import Constants ProfileForm.

Lemma lt_false (x y : Q) : Js.lt x y = false -> (y <= x)%Q.
Proof.
  unfold Js.lt. intros H. apply negb_false_iff in H. now apply Qle_bool_iff.
Qed.

Lemma round_pos (x : Q) : (1 # 2 <= x)%Q -> 0 < Js.Math_round x.
Proof.
  intros H. unfold Js.Math_round.
  assert (Hfl : Qfloor 1 <= Qfloor (x + (1 # 2))).
  { apply Qfloor_resp_le. lra. }
  change (Qfloor 1) with 1 in Hfl. lia.
Qed.

Example handleSubmit_five_feet :
  handleSubmit DEFAULT_PROFILE (Entered 5) Blank (Entered 150)
  = Some {| height_cm := 152; weight_kg := 68; activity_level := 2;
            exercise_freq_per_week := 2; diabetic_type := "type2" |}.
Proof. vm_compute. reflexivity. Qed.

Example handleSubmit_rejects_nine_feet :
  handleSubmit DEFAULT_PROFILE (Entered 9) (Entered 2) (Entered 150) = None.
Proof. reflexivity. Qed.

Example handleSubmit_rejects_blank_weight :
  handleSubmit DEFAULT_PROFILE (Entered 5) (Entered 2) Blank = None.
Proof. reflexivity. Qed.

(** What [validate] checks: feet within 3..8 and pounds within 50..700. *)
Lemma validate_bounds (heightFt heightIn weightLbs : field) :
  validate heightFt heightIn weightLbs = true ->
  is_blank heightFt = false /\ (3 <= Number heightFt <= 8)%Q /\
  is_blank weightLbs = false /\ (50 <= Number weightLbs <= 700)%Q.
Proof.
  unfold validate, no_keys, newErrors; simpl.
  destruct (is_blank heightFt || Js.lt (Number heightFt) 3 || Js.gt (Number heightFt) 8)
    eqn:Hh; [discriminate|].
  destruct (is_blank weightLbs || Js.lt (Number weightLbs) 50 || Js.gt (Number weightLbs) 700)
    eqn:Hw; [discriminate|].
  intros _.
  apply orb_false_iff in Hh as [Hh Hh8]. apply orb_false_iff in Hh as [Hhb Hh3].
  apply orb_false_iff in Hw as [Hw Hw7]. apply orb_false_iff in Hw as [Hwb Hw5].
  unfold Js.gt in *.
  repeat split; auto using lt_false.
Qed.

(** The weight of an accepted submission is positive. *)
Lemma handleSubmit_weight_pos (profile p : Profile) (heightFt heightIn weightLbs : field) :
  handleSubmit profile heightFt heightIn weightLbs = Some p -> 0 < weight_kg p.
Proof.
  unfold handleSubmit.
  destruct (validate heightFt heightIn weightLbs) eqn:Hv; [|discriminate].
  intros [= <-]; simpl.
  apply validate_bounds in Hv as (_ & _ & _ & Hw & _).
  apply round_pos. unfold Qdiv.
  change (/ (220462 # 100000))%Q with (100000 # 220462)%Q. lra.
Qed.

(** So is its height, when the inches are left blank or are not negative. *)
Lemma handleSubmit_height_pos (profile p : Profile) (heightFt heightIn weightLbs : field) :
  handleSubmit profile heightFt heightIn weightLbs = Some p ->
  (0 <= Number heightIn)%Q ->
  0 < height_cm p.
Proof.
  unfold handleSubmit.
  destruct (validate heightFt heightIn weightLbs) eqn:Hv; [|discriminate].
  intros [= <-] Hin; simpl.
  apply validate_bounds in Hv as (_ & [Hf _] & _).
  apply round_pos.
  destruct heightIn as [|q]; simpl in *; lra.
Qed.

(** C2 (the code at the failing input).  Validation does not establish
    [height_cm > 0]: [validate] never reads the inches field, so 3 feet and
    -36 inches at 50 pounds is accepted, and [handleSubmit] passes a profile
    with [height_cm = 0] to [onSubmit]; with -100 inches the height is
    negative. *)
Theorem handleSubmit_accepts_nonpositive_height :
  validate (Entered 3) (Entered (-36)) (Entered 50) = true /\
  handleSubmit DEFAULT_PROFILE (Entered 3) (Entered (-36)) (Entered 50)
  = Some {| height_cm := 0; weight_kg := 23; activity_level := 2;
            exercise_freq_per_week := 2; diabetic_type := "type2" |} /\
  validate (Entered 3) (Entered (-100)) (Entered 50) = true /\
  handleSubmit DEFAULT_PROFILE (Entered 3) (Entered (-100)) (Entered 50)
  = Some {| height_cm := -163; weight_kg := 23; activity_level := 2;
            exercise_freq_per_week := 2; diabetic_type := "type2" |}.
Proof. repeat split; vm_compute; reflexivity. Qed.

End ProfileFormFacts.

(** ** MealPlan: the daily summary *)

Module MealPlanFacts.
Import Constants MealPlan.




Example MealPlan_sample_within :
  MealPlan (Some sample_plan) (Some 120%Q)
  = Some {| shown_total := 231 # 2; shown_limit := Some 120%Q;
            bar_green := true; indicator := WithinDailyCarbLimit |}.
Proof. vm_compute. reflexivity. Qed.

Example MealPlan_sample_exceeds :
  MealPlan (Some sample_plan) (Some 100%Q)
  = Some {| shown_total := 231 # 2; shown_limit := Some 100%Q;
            bar_green := false; indicator := ExceedsDailyCarbLimit |}.
Proof. vm_compute. reflexivity. Qed.

Example MealPlan_sample_no_limit :
  MealPlan (Some sample_plan) None
  = Some {| shown_total := 231 # 2; shown_limit := None;
            bar_green := false; indicator := ExceedsDailyCarbLimit |}.
Proof. vm_compute. reflexivity. Qed.

Example MealPlan_missing_plan : MealPlan None (Some 100%Q) = None.
Proof. reflexivity. Qed.


End MealPlanFacts.

(** ** api.js: which message the error handler hands on *)

Module ApiFacts.
Import Api.

Lemma assoc_set_get (k : string) (v : Js.value) (fields : list (string * Js.value)) :
  Js.assoc k (Js.assoc_set k v fields) = v.
Proof.
  induction fields as [|[k' v'] rest IH]; simpl.
  - now rewrite String.eqb_refl.
  - destruct (String.eqb k k') eqn:Hk; simpl.
    + now rewrite String.eqb_refl.
    + now rewrite Hk.
Qed.

(** With no response, or a response whose body is missing or a JSON object,
    the handler's message reaches the slot callers read. *)
Lemma propagated_writable (error : AxiosError) :
  writable_body error = true ->
  propagated (on_rejected error) = errorMessage error.
Proof.
  unfold writable_body, propagated, on_rejected, detail.
  destruct (response error) as [r|]; simpl; [|reflexivity].
  destruct (Js.truthy (data r)) eqn:Ht; simpl.
  - destruct (data r); simpl; try discriminate.
    intros _. apply assoc_set_get.
  - intros _. reflexivity.
Qed.

Lemma usage_limit_message_mentions_limit :
  mentions_quota USAGE_LIMIT_MESSAGE = true.
Proof. vm_compute. reflexivity. Qed.

(** The handler's message is the fixed one exactly for a quota error. *)
Lemma errorMessage_usage_limit (error : AxiosError) :
  errorMessage error = Js.Str USAGE_LIMIT_MESSAGE <-> isQuotaError error = true.
Proof.
  unfold errorMessage.
  destruct (isQuotaError error) eqn:Hq; split; try reflexivity; try discriminate.
  intros Ho. unfold isQuotaError in Hq. rewrite Ho in Hq.
  rewrite usage_limit_message_mentions_limit in Hq.
  now rewrite orb_true_r in Hq.
Qed.

(** A quota error: status 429, or a string message that mentions one of the
    three phrases in any letter case. *)
Lemma isQuotaError_cases (error : AxiosError) :
  isQuotaError error = true <->
  (exists r, response error = Some r /\ status r = 429) \/
  (exists s, original_message error = Js.Str s /\
     (Js.includes (Js.toLowerCase s) "quota" = true \/
      Js.includes (Js.toLowerCase s) "limit" = true \/
      Js.includes (Js.toLowerCase s) "resource exhausted" = true)).
Proof.
  unfold isQuotaError, status_is_429, mentions_quota.
  rewrite orb_true_iff. split.
  - intros [H|H].
    + left. destruct (response error) as [r|]; [|discriminate].
      exists r. split; [reflexivity|]. now apply Z.eqb_eq.
    + right. destruct (original_message error) as [| |b|q|s|fs]; try discriminate.
      exists s. split; [reflexivity|].
      rewrite !orb_true_iff in H. tauto.
  - intros [(r & Hr & Hs)|(s & Hs & H)].
    + left. rewrite Hr. now apply Z.eqb_eq.
    + right. rewrite Hs. rewrite !orb_true_iff. tauto.
Qed.

(** Otherwise the original detail, or the message it falls back to, is
    handed on as it was. *)
Lemma propagated_unchanged (error : AxiosError) :
  writable_body error = true -> isQuotaError error = false ->
  propagated (on_rejected error) = original_message error.
Proof.
  intros Hw Hq. rewrite propagated_writable by exact Hw.
  unfold errorMessage. now rewrite Hq.
Qed.

(** Together: on a writable body the caller finds the fixed message exactly
    for status 429 or a string message that mentions one of the phrases. *)
Lemma propagated_usage_limit (error : AxiosError) :
  writable_body error = true ->
  propagated (on_rejected error) = Js.Str USAGE_LIMIT_MESSAGE <->
  (exists r, response error = Some r /\ status r = 429) \/
  (exists s, original_message error = Js.Str s /\
     (Js.includes (Js.toLowerCase s) "quota" = true \/
      Js.includes (Js.toLowerCase s) "limit" = true \/
      Js.includes (Js.toLowerCase s) "resource exhausted" = true)).
Proof.
  intros Hw. rewrite propagated_writable by exact Hw.
  rewrite errorMessage_usage_limit. apply isQuotaError_cases.
Qed.

Example on_rejected_quota_detail :
  propagated (on_rejected
    {| response := Some {| status := 500;
                           data := Js.Obj [("detail", Js.Str "Gemini quota exceeded")] |};
       message := Js.Str "Request failed with status code 500" |})
  = Js.Str USAGE_LIMIT_MESSAGE.
Proof. reflexivity. Qed.

Example on_rejected_429_no_body :
  propagated (on_rejected
    {| response := Some {| status := 429; data := Js.Null |};
       message := Js.Str "Request failed with status code 429" |})
  = Js.Str USAGE_LIMIT_MESSAGE.
Proof. reflexivity. Qed.

Example on_rejected_timeout :
  propagated (on_rejected
    {| response := None; message := Js.Str "timeout of 60000ms exceeded" |})
  = Js.Str "timeout of 60000ms exceeded".
Proof. reflexivity. Qed.

(** C9 (the code at the failing input).  A 429 answered with a plain-text
    body is a quota error, yet the handler rejects with the error as it
    came: the body is not an object, so no [detail] is written, and the
    message is only replaced when there is no response.  The caller finds
    neither the fixed message nor a detail. *)
Theorem on_rejected_429_text_body :
  let error :=
    {| response := Some {| status := 429; data := Js.Str "Too Many Requests" |};
       message := Js.Str "Request failed with status code 429" |} in
  isQuotaError error = true /\
  errorMessage error = Js.Str USAGE_LIMIT_MESSAGE /\
  on_rejected error = error /\
  propagated (on_rejected error) = Js.Undefined /\
  message (on_rejected error) = Js.Str "Request failed with status code 429".
Proof. repeat split. Qed.

End ApiFacts.

(** ** App: going back never advances the wizard *)

Module AppFacts.
Import App.

Example handleBack_steps :
  handleBack (Js.Num 5) = Js.Num 4 /\ handleBack (Js.Num 3) = Js.Num 2 /\
  handleBack (Js.Num 0) = Js.Num 0 /\ handleBack (Js.Num 7) = Js.Num 7 /\
  handleBack (Js.Str "5") = Js.Str "5" /\ handleBack Js.Null = Js.Null.
Proof. repeat split. Qed.

(** Case split on [q === n], keeping the cases the earlier tests allow. *)
Ltac step_cases q n :=
  let H := fresh "H" in
  destruct (Qeq_bool q n) eqn:H;
  [apply Qeq_bool_iff in H | apply Qeq_bool_neq in H];
  try (exfalso; lra).

(** C10.  For every value of [currentStep], [handleBack] takes MEAL_PLAN to
    METRICS, METRICS to DASHBOARD, DASHBOARD to CARE_MODE, CARE_MODE to
    PROFILE and PROFILE to START, and leaves START and every value that names
    no step as it is; on a number the step never increases. *)
Theorem handleBack_never_advances (currentStep : Js.value) :
  match step_of currentStep with
  | Some Start | None => handleBack currentStep = currentStep
  | Some s => handleBack currentStep = Js.Num (code (previous s))
  end /\
  match currentStep, handleBack currentStep with
  | Js.Num before, Js.Num after => (after <= before)%Q
  | Js.Num _, _ => False
  | _, after => after = currentStep
  end.
Proof.
  unfold step_of, handleBack; simpl.
  destruct currentStep as [| |b|q|s|fs]; simpl; try (split; reflexivity).
  unfold STEPS.START, STEPS.PROFILE, STEPS.CARE_MODE, STEPS.DASHBOARD,
    STEPS.METRICS, STEPS.MEAL_PLAN.
  step_cases q 0%Q; step_cases q 1%Q; step_cases q 2%Q;
  step_cases q 3%Q; step_cases q 4%Q; step_cases q 5%Q;
  simpl; split; try reflexivity; lra.
Qed.

End AppFacts.

(** ** HealthMetricsCalculator: the contract on the modelled pipeline *)

Module HealthMetricsCalculatorFacts.
Import HealthMetricsCalculator.








End HealthMetricsCalculatorFacts.

(** * Further properties of the frontend *)

(** ** ProfileForm and Dashboard: the unit conversions *)

Module ConversionFacts.
Import Constants ProfileForm.

(** [Math.round x] is within a half of [x]. *)
Lemma round_bounds (x : Q) :
  (inject_Z (Js.Math_round x) <= x + (1 # 2) /\
   x - (1 # 2) < inject_Z (Js.Math_round x))%Q.
Proof.
  unfold Js.Math_round.
  pose proof (Qfloor_le (x + (1 # 2))) as Hle.
  pose proof (Qlt_floor (x + (1 # 2))) as Hlt.
  rewrite inject_Z_plus in Hlt. change (inject_Z 1) with 1%Q in Hlt.
  split; lra.
Qed.

Lemma inject_Z_lt_le (a b : Z) : (inject_Z a < inject_Z b + 1)%Q -> a <= b.
Proof.
  intros H. change 1%Q with (inject_Z 1) in H. rewrite <- inject_Z_plus in H.
  rewrite <- Zlt_Qlt in H. lia.
Qed.

(** Pounds within the form's bounds, converted and rounded. *)
Lemma round_kg_range (pounds : Q) :
  (50 <= pounds <= 700)%Q ->
  23 <= Js.Math_round (pounds / (220462 # 100000)) <= 318.
Proof.
  intros [Hlo Hhi].
  destruct (round_bounds (pounds / (220462 # 100000))) as [Hup Hdown].
  unfold Qdiv in *.
  change (/ (220462 # 100000))%Q with (100000 # 220462)%Q in *.
  split.
  - assert (H : (inject_Z 22 < inject_Z (Js.Math_round (pounds * (100000 # 220462))))%Q).
    { change (inject_Z 22) with 22%Q. lra. }
    rewrite <- Zlt_Qlt in H. lia.
  - apply inject_Z_lt_le. change (inject_Z 318) with 318%Q. lra.
Qed.

(** X1.  Every submission the form accepts carries a weight between 23 and
    318 kg: the bounds 50 and 700 lb, converted and rounded. *)
Theorem handleSubmit_weight_range
    (profile p : Profile) (heightFt heightIn weightLbs : field) :
  handleSubmit profile heightFt heightIn weightLbs = Some p ->
  23 <= weight_kg p <= 318.
Proof.
  unfold handleSubmit.
  destruct (validate heightFt heightIn weightLbs) eqn:Hv; [|discriminate].
  intros [= <-]; simpl.
  apply ProfileFormFacts.validate_bounds in Hv as (_ & _ & _ & Hw).
  now apply round_kg_range.
Qed.

Lemma handleSubmit_weight_range_witness :
  23 <= weight_kg {| height_cm := 152; weight_kg := 68; activity_level := 2;
                     exercise_freq_per_week := 2; diabetic_type := "type2" |} <= 318.
Proof.
  apply (handleSubmit_weight_range DEFAULT_PROFILE _ (Entered 5) Blank (Entered 150)).
  vm_compute. reflexivity.
Defined.

(** X2.  When the inches are blank or within 0..12, an accepted submission
    carries a height between 91 and 274 cm. *)
Theorem handleSubmit_height_range
    (profile p : Profile) (heightFt heightIn weightLbs : field) :
  handleSubmit profile heightFt heightIn weightLbs = Some p ->
  (0 <= Number heightIn < 12)%Q ->
  91 <= height_cm p <= 274.
Proof.
  unfold handleSubmit.
  destruct (validate heightFt heightIn weightLbs) eqn:Hv; [|discriminate].
  intros [= <-] [Hin0 Hin12]; simpl.
  apply ProfileFormFacts.validate_bounds in Hv as (_ & [Hf3 Hf8] & _).
  set (inches := (if is_blank heightIn then 0 else Number heightIn)%Q).
  assert (Hinches : (inches == Number heightIn)%Q).
  { unfold inches. destruct heightIn; reflexivity. }
  destruct (round_bounds ((Number heightFt * 12 + inches) * (254 # 100))) as [Hup Hdown].
  split.
  - assert (H : (inject_Z 90 < inject_Z (Js.Math_round ((Number heightFt * 12 + inches) * (254 # 100))))%Q).
    { change (inject_Z 90) with 90%Q. lra. }
    rewrite <- Zlt_Qlt in H. lia.
  - apply inject_Z_lt_le. change (inject_Z 274) with 274%Q. lra.
Qed.

Lemma handleSubmit_height_range_witness :
  91 <= height_cm {| height_cm := 180; weight_kg := 68; activity_level := 2;
                     exercise_freq_per_week := 2; diabetic_type := "type2" |} <= 274.
Proof.
  apply (handleSubmit_height_range DEFAULT_PROFILE _ (Entered 5) (Entered 11) (Entered 150)).
  - vm_compute. reflexivity.
  - simpl. split; [discriminate | reflexivity].
Defined.

(** X3.  The weight round trip.  A whole number of pounds that the form
    accepts comes back on the dashboard, converted to kilograms and back and
    rounded twice, as a number of pounds at most one away. *)
Theorem weight_round_trip
    (profile p : Profile) (heightFt heightIn : field) (pounds : Z) :
  handleSubmit profile heightFt heightIn (Entered (inject_Z pounds)) = Some p ->
  exists shown : Z,
    Dashboard.weightLbs (Some p) = Some shown /\ pounds - 1 <= shown <= pounds + 1.
Proof.
  intros Hsub.
  pose proof (ProfileFormFacts.handleSubmit_weight_pos profile p _ _ _ Hsub) as Hpos.
  revert Hsub Hpos. unfold handleSubmit.
  destruct (validate heightFt heightIn (Entered (inject_Z pounds))) eqn:Hv; [|discriminate].
  intros [= <-]; simpl. intros Hpos.
  set (kg := Js.Math_round (inject_Z pounds / (220462 # 100000))) in *.
  destruct (kg =? 0) eqn:Hk; [apply Z.eqb_eq in Hk; lia|].
  eexists. split; [reflexivity|].
  destruct (round_bounds (inject_Z pounds / (220462 # 100000))) as [Hup Hdown].
  fold kg in Hup, Hdown.
  destruct (round_bounds (inject_Z kg * (220462 # 100000))) as [Hup' Hdown'].
  unfold Qdiv in *.
  change (/ (220462 # 100000))%Q with (100000 # 220462)%Q in *.
  split.
  - assert (H : (inject_Z (pounds - 2) < inject_Z (Js.Math_round (inject_Z kg * (220462 # 100000))))%Q).
    { replace (pounds - 2) with (pounds + (-2)) by lia.
      rewrite inject_Z_plus. change (inject_Z (-2)) with (-2 # 1)%Q. lra. }
    rewrite <- Zlt_Qlt in H. lia.
  - assert (H : (inject_Z (Js.Math_round (inject_Z kg * (220462 # 100000))) < inject_Z (pounds + 2))%Q).
    { rewrite inject_Z_plus. change (inject_Z 2) with 2%Q. lra. }
    rewrite <- Zlt_Qlt in H. lia.
Qed.

Lemma weight_round_trip_witness :
  exists shown : Z,
    Dashboard.weightLbs
      (Some {| height_cm := 152; weight_kg := 68; activity_level := 2;
               exercise_freq_per_week := 2; diabetic_type := "type2" |})
    = Some shown /\ 151 - 1 <= shown <= 151 + 1.
Proof.
  apply (weight_round_trip DEFAULT_PROFILE _ (Entered 5) Blank 151).
  vm_compute. reflexivity.
Defined.

(** The round trip is not the identity: 151 lb is stored as 68 kg and shown
    as 150 lb. *)
Example weight_round_trip_151 :
  handleSubmit DEFAULT_PROFILE (Entered 5) Blank (Entered 151)
  = Some {| height_cm := 152; weight_kg := 68; activity_level := 2;
            exercise_freq_per_week := 2; diabetic_type := "type2" |} /\
  Dashboard.weightLbs
    (Some {| height_cm := 152; weight_kg := 68; activity_level := 2;
             exercise_freq_per_week := 2; diabetic_type := "type2" |})
  = Some 150.
Proof. split; vm_compute; reflexivity. Qed.

End ConversionFacts.

(** ** MealPlan: which entries of the plan count *)

Module MealPlanKeyFacts.
Import Constants MealPlan MealPlanUpdate.








End MealPlanKeyFacts.

(** ** MealPlan: the progress bar *)

Module ProgressBarFacts.
Import JsNumber ProgressBar.

Lemma le_true (x y : Q) : Js.le x y = true <-> (x <= y)%Q.
Proof. apply Qle_bool_iff. Qed.

Lemma le_false (x y : Q) : Js.le x y = false <-> (y < x)%Q.
Proof.
  unfold Js.le. rewrite <- not_true_iff_false, Qle_bool_iff.
  split; [apply Qnot_le_lt | apply Qlt_not_le].
Qed.

Lemma ratio_le_100 (t l : Q) :
  (0 < l)%Q -> (t / l * 100 <= 100 <-> t <= l)%Q.
Proof.
  intros Hl.
  assert (Ht : (t == t / l * l)%Q) by (rewrite Qmult_comm, Qmult_div_r; [reflexivity | lra]).
  set (x := (t / l)%Q) in *. clearbody x. split; intros H.
  - rewrite Ht. nra.
  - rewrite Ht in H. nra.
Qed.

Lemma ratio_ge_100 (t l : Q) :
  (0 < l)%Q -> (100 <= t / l * 100 <-> l <= t)%Q.
Proof.
  intros Hl.
  assert (Ht : (t == t / l * l)%Q) by (rewrite Qmult_comm, Qmult_div_r; [reflexivity | lra]).
  set (x := (t / l)%Q) in *. clearbody x. split; intros H.
  - rewrite Ht. nra.
  - rewrite Ht in H. nra.
Qed.

(** X6.  The bar never overflows: whatever the total and the limit, the
    width is not plus infinity, and when it is a number it is at most 100. *)
Theorem width_at_most_100 (totalCarbs : Q) (dailyCarbsLimit : option Q) :
  match width totalCarbs dailyCarbsLimit with
  | Finite w => (w <= 100)%Q
  | PosInfinity => False
  | NegInfinity | NaN => True
  end.
Proof.
  unfold width. destruct dailyCarbsLimit as [l|]; [|exact I].
  unfold div.
  destruct (Qeq_bool l 0); [destruct (Qeq_bool totalCarbs 0); [exact I|];
    destruct (Js.lt 0 totalCarbs); simpl; [|exact I]; discriminate|].
  simpl. destruct (Js.le (totalCarbs / l * 100) 100) eqn:Hle.
  - now apply le_true.
  - discriminate.
Qed.

(** X7.  Against a positive limit the width is a number, and the bar is
    full exactly when the total has reached the limit, which is when the
    bar is red or the total equals the limit. *)
Theorem width_full_iff (totalCarbs l : Q) :
  (0 < l)%Q ->
  exists w : Q,
    width totalCarbs (Some l) = Finite w /\
    ((w == 100)%Q <-> (l <= totalCarbs)%Q) /\
    ((w < 100)%Q -> MealPlan.within_limit totalCarbs (Some l) = true).
Proof.
  intros Hl. unfold width, div.
  destruct (Qeq_bool l 0) eqn:Hz; [apply Qeq_bool_iff in Hz; lra|].
  simpl. eexists. split; [reflexivity|].
  pose proof (ratio_le_100 totalCarbs l Hl) as Hr.
  destruct (Js.le (totalCarbs / l * 100) 100) eqn:Hle.
  - apply le_true in Hle. assert (Hle' : (totalCarbs <= l)%Q) by tauto.
    split.
    + pose proof (ratio_ge_100 totalCarbs l Hl) as Hg.
      split; intros H.
      * apply Hg. rewrite H. apply Qle_refl.
      * apply Hg in H. apply Qle_antisym; assumption.
    + intros _. simpl. now apply le_true.
  - apply le_false in Hle.
    assert (Hgt : (l < totalCarbs)%Q).
    { apply Qnot_le_lt. intros Hc. apply Hr in Hc. lra. }
    split.
    + split; intros _; [lra | reflexivity].
    + intros H. exfalso. revert H. apply Qlt_irrefl.
Qed.

Lemma width_full_iff_witness :
  exists w : Q,
    width 50 (Some 100%Q) = Finite w /\
    ((w == 100)%Q <-> (100 <= 50)%Q) /\
    ((w < 100)%Q -> MealPlan.within_limit 50 (Some 100%Q) = true).
Proof. apply (width_full_iff 50 100). reflexivity. Defined.

End ProgressBarFacts.

(** ** api.js: what the error handler keeps *)

Module InterceptorFacts.
Import Api.

Lemma or_same (v : Js.value) : Js.or v v = v.
Proof. unfold Js.or. now destruct (Js.truthy v). Qed.

Lemma or_truthy (a b : Js.value) : Js.truthy a = true -> Js.or a b = a.
Proof. unfold Js.or. now intros ->. Qed.

Lemma or_falsy (a b : Js.value) : Js.truthy a = false -> Js.or a b = b.
Proof. unfold Js.or. now intros ->. Qed.

Lemma assoc_set_other (k k' : string) (v : Js.value) (fields : list (string * Js.value)) :
  k' <> k -> Js.assoc k' (Js.assoc_set k v fields) = Js.assoc k' fields.
Proof.
  intros Hne. induction fields as [|[k0 v0] rest IH]; simpl.
  - destruct (String.eqb k' k) eqn:E; [apply String.eqb_eq in E; contradiction | reflexivity].
  - destruct (String.eqb k k0) eqn:E; simpl.
    + apply String.eqb_eq in E. subst k0.
      destruct (String.eqb k' k) eqn:E'; [apply String.eqb_eq in E'; contradiction | reflexivity].
    + destruct (String.eqb k' k0); [reflexivity | exact IH].
Qed.

Lemma assoc_set_twice (k : string) (v w : Js.value) (fields : list (string * Js.value)) :
  Js.assoc_set k w (Js.assoc_set k v fields) = Js.assoc_set k w fields.
Proof.
  induction fields as [|[k0 v0] rest IH]; simpl.
  - now rewrite String.eqb_refl.
  - destruct (String.eqb k k0) eqn:E; simpl.
    + now rewrite String.eqb_refl.
    + now rewrite E, IH.
Qed.

Lemma usage_limit_truthy : Js.truthy (Js.Str USAGE_LIMIT_MESSAGE) = true.
Proof. reflexivity. Qed.

(** The message of an error that carries [m] in the slot the handler writes
    to, when [m] is the handler's message for an error of the same status. *)
Lemma errorMessage_fixpoint (error error' : AxiosError) :
  status_is_429 error' = status_is_429 error ->
  original_message error' = errorMessage error ->
  errorMessage error' = errorMessage error.
Proof.
  intros Hs Ho. unfold errorMessage at 1. unfold isQuotaError.
  rewrite Hs, Ho. unfold errorMessage.
  destruct (isQuotaError error) eqn:Hq.
  - rewrite ApiFacts.usage_limit_message_mentions_limit, orb_true_r. reflexivity.
  - unfold isQuotaError in Hq. rewrite Hq. reflexivity.
Qed.

(** X8.  The error handler is idempotent: handling an error it has already
    handled changes nothing, so a second pass cannot turn one message into
    another. *)
Theorem on_rejected_idempotent (error : AxiosError) :
  on_rejected (on_rejected error) = on_rejected error.
Proof.
  destruct error as [[[st d]|] msg].
  - (* with a response *)
    set (e := {| response := Some {| status := st; data := d |}; message := msg |}).
    destruct (Js.truthy d) eqn:Ht.
    + destruct d as [| |b|q|s|fields]; simpl in Ht; try discriminate Ht.
      * subst b. reflexivity.
      * unfold on_rejected; simpl. rewrite Ht; simpl. rewrite Ht. reflexivity.
      * unfold on_rejected; simpl. rewrite Ht; simpl. rewrite Ht. reflexivity.
      * (* an object body *)
        unfold on_rejected at 2. simpl.
        set (m := errorMessage e).
        set (e' := {| response := Some {| status := st;
                        data := Js.Obj (Js.assoc_set "detail" m fields) |};
                      message := msg |}).
        assert (Hm : errorMessage e' = m).
        { apply errorMessage_fixpoint; [reflexivity|].
          unfold original_message, detail; simpl. rewrite ApiFacts.assoc_set_get.
          unfold m, errorMessage.
          destruct (isQuotaError e); [reflexivity|].
          unfold original_message, detail; simpl.
          destruct (Js.truthy (Js.assoc "detail" fields)) eqn:Hd.
          - rewrite (or_truthy (Js.assoc "detail" fields)) by exact Hd.
            now apply or_truthy.
          - rewrite (or_falsy (Js.assoc "detail" fields)) by exact Hd.
            apply or_same. }
        unfold on_rejected. simpl. fold e'. rewrite Hm.
        rewrite assoc_set_twice. reflexivity.
    + (* a falsy body is replaced by a fresh object *)
      assert (Hdet : detail e = Js.Undefined).
      { unfold detail; simpl. destruct d; simpl in *; try reflexivity; discriminate. }
      set (m := errorMessage e).
      set (e' := {| response := Some {| status := st;
                      data := Js.Obj [("detail", m)] |};
                    message := msg |}).
      assert (Hone : on_rejected e = e').
      { unfold on_rejected; simpl. rewrite Ht. reflexivity. }
      assert (Hm : errorMessage e' = m).
      { apply errorMessage_fixpoint; [reflexivity|].
        unfold original_message at 1. unfold detail; simpl.
        unfold m, errorMessage.
        destruct (isQuotaError e); [reflexivity|].
        unfold original_message. rewrite Hdet. simpl. apply or_same. }
      rewrite Hone. unfold on_rejected, e'; simpl. fold e'. rewrite Hm. reflexivity.
  - (* without a response *)
    set (e := {| response := None; message := msg |}).
    unfold on_rejected at 2. simpl.
    set (e' := {| response := None; message := errorMessage e |}).
    assert (Hm : errorMessage e' = errorMessage e).
    { apply errorMessage_fixpoint; reflexivity. }
    unfold on_rejected. simpl. fold e'. now rewrite Hm.
Qed.

(** X9.  The handler writes nothing but the one slot: it never adds or drops
    the response, never changes the status, leaves [error.message] alone when
    there is a response, and leaves every property of the body other than
    [detail] as it was. *)
Theorem on_rejected_keeps_the_rest (error : AxiosError) :
  match response error, response (on_rejected error) with
  | Some r, Some r' =>
      status r' = status r /\
      message (on_rejected error) = message error /\
      forall k : string, k <> "detail" -> Js.get (data r') k = Js.get (data r) k
  | None, None => True
  | _, _ => False
  end.
Proof.
  unfold on_rejected.
  destruct (response error) as [r|]; simpl; [|exact I].
  split; [reflexivity|]. split; [reflexivity|].
  intros k Hk.
  destruct (Js.truthy (data r)) eqn:Ht.
  - destruct (data r) as [| |b|q|s|fields]; simpl; try reflexivity.
    now apply assoc_set_other.
  - simpl. destruct (String.eqb k "detail") eqn:E.
    + apply String.eqb_eq in E. contradiction.
    + destruct (data r); simpl in *; try reflexivity; discriminate.
Qed.

End InterceptorFacts.

(** ** The messages the [catch] blocks show after the interceptor *)

Module CatchFacts.
Import Api Catch.




(** X11.  When the request got no response (network failure, timeout), the
    chat hook and the registration step show their own fallback text: the
    message the interceptor prepared is in [error.message], which they do not
    read. *)
Theorem no_response_shows_fallback (error : AxiosError) :
  response error = None ->
  useChat_errorMessage (on_rejected error)
  = Js.Str "An error occurred, please try again later" /\
  registration_error (on_rejected error)
  = Js.Str "Registration failed, please try again later".
Proof.
  intros Hr. unfold useChat_errorMessage, registration_error, detail, on_rejected.
  rewrite Hr. simpl. split; reflexivity.
Qed.

Lemma no_response_shows_fallback_witness :
  useChat_errorMessage
    (on_rejected {| response := None; message := Js.Str "Network Error" |})
  = Js.Str "An error occurred, please try again later" /\
  registration_error
    (on_rejected {| response := None; message := Js.Str "Network Error" |})
  = Js.Str "Registration failed, please try again later".
Proof.
  apply (no_response_shows_fallback {| response := None; message := Js.Str "Network Error" |}).
  reflexivity.
Defined.

(** X12.  The meal-plan generator reads [err.message] first.  For an error
    with a response and a non-empty message (axios always sets one) it shows
    that message as it came, whatever detail the interceptor wrote: a 429
    does not show the usage-limit text there. *)
Theorem generation_error_shows_message (error : AxiosError) (r : Response) :
  response error = Some r -> Js.truthy (message error) = true ->
  generation_error (on_rejected error) = message error.
Proof.
  intros Hr Hm. unfold generation_error.
  assert (Hmsg : message (on_rejected error) = message error).
  { unfold on_rejected. rewrite Hr. reflexivity. }
  rewrite Hmsg.
  rewrite (InterceptorFacts.or_truthy (message error)) by exact Hm.
  now apply InterceptorFacts.or_truthy.
Qed.

Lemma generation_error_shows_message_witness :
  generation_error
    (on_rejected
       {| response := Some {| status := 429;
                              data := Js.Obj [("detail", Js.Str "Quota exceeded")] |};
          message := Js.Str "Request failed with status code 429" |})
  = Js.Str "Request failed with status code 429".
Proof.
  apply (generation_error_shows_message
           {| response := Some {| status := 429;
                                  data := Js.Obj [("detail", Js.Str "Quota exceeded")] |};
              message := Js.Str "Request failed with status code 429" |}
           {| status := 429; data := Js.Obj [("detail", Js.Str "Quota exceeded")] |});
    reflexivity.
Defined.

End CatchFacts.

(** ** api.js: the query of a recipe search *)

Module RecipeApiFacts.
Import RecipeApi.

Lemma In_append_if (name k : string) (x v : Js.value) (params : list (string * Js.value)) :
  In (k, v) (append_if name x params) <->
  In (k, v) params \/ (Js.truthy x = true /\ k = name /\ v = x).
Proof.
  unfold append_if. destruct (Js.truthy x).
  - rewrite in_app_iff. simpl. split.
    + intros [H|[[= <- <-]|[]]]; [left; exact H | right; auto].
    + intros [H|(_ & -> & ->)]; [left; exact H | right; left; reflexivity].
  - split; [intros H; left; exact H | intros [H|(H & _)]; [exact H | discriminate]].
Qed.

(** X13.  A recipe search sends a parameter for exactly the filters that are
    truthy, under the backend's names and with the filter's value, each name
    at most once.  A filter that is missing, empty or 0 is not sent: a carb
    limit of 0 cannot be asked for. *)
Theorem search_params_exact (filters : Filters) :
  NoDup (map fst (search_params filters)) /\
  forall (k : string) (v : Js.value),
    In (k, v) (search_params filters) <->
    Js.truthy v = true /\
    ((k = "category" /\ v = category filters) \/
     (k = "max_carbs" /\ v = maxCarbs filters) \/
     (k = "max_cooking_time" /\ v = maxCookingTime filters) \/
     (k = "gi_level" /\ v = giLevel filters) \/
     (k = "limit" /\ v = limit filters)).
Proof.
  split.
  - unfold search_params, append_if.
    destruct (Js.truthy (category filters)), (Js.truthy (maxCarbs filters)),
      (Js.truthy (maxCookingTime filters)), (Js.truthy (giLevel filters)),
      (Js.truthy (limit filters)); simpl;
      apply (bool_decide_unpack _); vm_compute; exact I.
  - intros k v. unfold search_params. rewrite !In_append_if. simpl.
    split.
    + intros [[[[[[]|H]|H]|H]|H]|H]; destruct H as (Ht & -> & ->); split; auto 10.
    + intros (Ht & [[-> ->]|[[-> ->]|[[-> ->]|[[-> ->]|[-> ->]]]]]); auto 10.
Qed.

Example search_no_filters : search_params no_filters = [].
Proof. reflexivity. Qed.

Example search_zero_carbs :
  search_params {| category := Js.Str "soup"; maxCarbs := Js.Num 0;
                   maxCookingTime := Js.Undefined; giLevel := Js.Str "low";
                   limit := Js.Num 5 |}
  = [("category", Js.Str "soup"); ("gi_level", Js.Str "low"); ("limit", Js.Num 5)].
Proof. reflexivity. Qed.

End RecipeApiFacts.

(** ** Dashboard and CareModeSelection: the names of the care modes *)

Module CareModeFacts.
Import CareModeSelection.

(** X14.  The dashboard names exactly the modes the selection screen
    offers: each offered id is shown under its card's title, and every other
    diabetic type, "gestational" included, is shown as General Health. *)
Theorem getModeName_matches_MODES (type : Js.value) :
  (forall m : Mode, In m MODES -> type = Js.Str (id m) ->
     Dashboard.getModeName type = title m) /\
  ((forall m : Mode, In m MODES -> type <> Js.Str (id m)) ->
     Dashboard.getModeName type = "General Health").
Proof.
  split.
  - intros m Hin ->. simpl in Hin.
    destruct Hin as [<-|[<-|[<-|[]]]]; reflexivity.
  - intros Hnone. unfold Dashboard.getModeName.
    destruct type as [| |b|q|t|fs]; try reflexivity.
    destruct (String.eqb t "type1") eqn:E1.
    { apply String.eqb_eq in E1. subst t.
      exfalso. apply (Hnone (mkMode "type1" "Precision Protection")); simpl; auto. }
    destruct (String.eqb t "type2") eqn:E2.
    { apply String.eqb_eq in E2. subst t.
      exfalso. apply (Hnone (mkMode "type2" "Stable Glycemic Control")); simpl; auto. }
    destruct (String.eqb t "prediabetic") eqn:E3.
    { apply String.eqb_eq in E3. subst t.
      exfalso. apply (Hnone (mkMode "prediabetic" "Lifestyle Balance")); simpl; auto. }
    reflexivity.
Qed.

Lemma getModeName_matches_MODES_witness :
  Dashboard.getModeName (Js.Str "type2") = "Stable Glycemic Control" /\
  Dashboard.getModeName (Js.Str "gestational") = "General Health".
Proof.
  split.
  - apply (proj1 (getModeName_matches_MODES (Js.Str "type2"))
             (mkMode "type2" "Stable Glycemic Control")).
    + simpl. auto.
    + reflexivity.
  - apply (proj2 (getModeName_matches_MODES (Js.Str "gestational"))).
    intros m Hin. simpl in Hin.
    destruct Hin as [<-|[<-|[<-|[]]]]; discriminate.
Defined.

End CareModeFacts.

(** ** App: what the wizard can reach *)

Module WizardFacts.
Import Constants Wizard WizardSpec.

Lemma reachable_run (events : list Event) (s : State) :
  reachable s -> reachable (run events s).
Proof.
  revert s. induction events as [|e rest IH]; simpl; intros s Hs; [exact Hs|].
  apply IH. destruct (enabled s e) eqn:He; [now apply reachable_step | exact Hs].
Qed.

Lemma one_of_options (n : Z) :
  one_of ProfileFormState.WORKOUT_OPTIONS n = true -> 0 <= n <= 7.
Proof.
  unfold one_of, ProfileFormState.WORKOUT_OPTIONS; simpl.
  rewrite !orb_true_iff, !Z.eqb_eq. lia.
Qed.

Lemma mode_id_In (m : string) :
  mode_id m = true -> In m (map CareModeSelection.id CareModeSelection.MODES).
Proof.
  unfold mode_id. rewrite existsb_exists.
  intros (x & Hin & Heq). apply String.eqb_eq in Heq. now subst.
Qed.

(** The workout select only ever changes the workout frequency. *)
Lemma profile_after_options (selections : list Z) :
  forallb (one_of ProfileFormState.WORKOUT_OPTIONS) selections = true ->
  activity_level (ProfileFormState.profile_after selections) = 2 /\
  0 <= exercise_freq_per_week (ProfileFormState.profile_after selections) <= 7.
Proof.
  unfold ProfileFormState.profile_after.
  assert (Hgen : forall (st : Profile * ProfileForm.Errors),
    activity_level (fst st) = 2 /\ 0 <= exercise_freq_per_week (fst st) <= 7 ->
    forallb (one_of ProfileFormState.WORKOUT_OPTIONS) selections = true ->
    let st' := fold_left
      (fun st value => ProfileFormState.handleChange "exercise_freq_per_week" value st)
      selections st in
    activity_level (fst st') = 2 /\ 0 <= exercise_freq_per_week (fst st') <= 7).
  { induction selections as [|n rest IH]; simpl; intros st Hst Hall; [exact Hst|].
    apply andb_true_iff in Hall as [Hn Hrest].
    apply IH; [|exact Hrest]. simpl. split; [apply Hst | now apply one_of_options]. }
  intros Hall. apply Hgen; [|exact Hall]. simpl. lia.
Qed.

Lemma handleSubmit_from_form
    (selections : list Z) (heightFt heightIn weightLbs : ProfileForm.field) (p : Profile) :
  forallb (one_of ProfileFormState.WORKOUT_OPTIONS) selections = true ->
  ProfileForm.handleSubmit (ProfileFormState.profile_after selections)
    heightFt heightIn weightLbs = Some p ->
  from_form p.
Proof.
  intros Hall Hsub.
  destruct (profile_after_options selections Hall) as [Ha He].
  revert Hsub. unfold ProfileForm.handleSubmit.
  destruct (ProfileForm.validate heightFt heightIn weightLbs) eqn:Hv; [|discriminate].
  intros [= <-]. unfold from_form; simpl.
  apply ProfileFormFacts.validate_bounds in Hv as (_ & _ & _ & Hw).
  repeat split; try assumption; try apply He; now apply ConversionFacts.round_kg_range.
Qed.

(** The four steps and their views. *)
Lemma walked_cases (s : State) :
  In (currentStep s) WALKED_STEPS ->
  (currentStep s = Js.Num App.STEPS.START /\ render s = StartPageView) \/
  (currentStep s = Js.Num App.STEPS.PROFILE /\ render s = ProfileFormView) \/
  (currentStep s = Js.Num App.STEPS.CARE_MODE /\ render s = CareModeSelectionView) \/
  (currentStep s = Js.Num App.STEPS.DASHBOARD /\
   render s = DashboardView (Js.truthy (userId s))).
Proof.
  unfold WALKED_STEPS, render. simpl.
  intros [H|[H|[H|[H|[]]]]]; rewrite <- H; simpl; auto 6.
Qed.

Lemma walked_In (v : Js.value) :
  v = Js.Num App.STEPS.START \/ v = Js.Num App.STEPS.PROFILE \/
  v = Js.Num App.STEPS.CARE_MODE \/ v = Js.Num App.STEPS.DASHBOARD ->
  In v WALKED_STEPS.
Proof. unfold WALKED_STEPS; simpl. intuition auto. Qed.

(** The invariant of a state that differs only in fields it does not read. *)
Ltac keep_invariant :=
  constructor; simpl; try assumption; try discriminate;
  try (apply walked_In; auto 6; fail).

Lemma handle_preserves (s : State) (e : Event) :
  Invariant s -> enabled s e = true -> Invariant (handle e s).
Proof.
  intros [Hstep Hgen Hcalls Hpend Hfull] Hen.
  pose proof (walked_cases s Hstep) as Hview.
  unfold enabled in Hen.
  destruct e; simpl.
  - (* ClickGetStarted *)
    keep_invariant.
  - (* SubmitProfileForm *)
    destruct (ProfileForm.handleSubmit _ heightFt heightIn weightLbs) as [p|] eqn:Hsub;
      [|constructor; assumption].
    keep_invariant.
    intros p' [= <-].
    destruct Hview as [[_ Hv]|[[_ Hv]|[[_ Hv]|[_ Hv]]]]; rewrite Hv in Hen;
      try discriminate Hen.
    now apply (handleSubmit_from_form selections heightFt heightIn weightLbs).
  - (* ClickBack *)
    keep_invariant.
    destruct Hview as [[Hs _]|[[Hs _]|[[Hs _]|[Hs _]]]]; rewrite Hs;
      apply walked_In; simpl; auto 6.
  - (* ContinueCareMode *)
    destruct selectedMode as [m|]; simpl; [|constructor; assumption].
    destruct (String.eqb m "") eqn:Hm; [constructor; assumption|].
    unfold handleCareModeSelect.
    remember (pendingProfile s) as pending eqn:Hp in |- *.
    destruct pending as [p|]; [|constructor; assumption].
    symmetry in Hp.
    assert (Hreg : registrable (completeProfile p m)).
    { split; [apply (Hpend p Hp)|]. simpl.
      destruct Hview as [[_ Hv]|[[_ Hv]|[[_ Hv]|[_ Hv]]]]; rewrite Hv in Hen;
        try discriminate Hen.
      now apply mode_id_In. }
    keep_invariant.
    + constructor; assumption.
    + intros f [= <-]. now left.
  - (* RegisterFulfilled *)
    unfold register_fulfilled.
    destruct response; keep_invariant.
  - (* RegisterRejected *)
    keep_invariant.
  - (* DailyPlanFulfilled *)
    unfold daily_fulfilled. destruct mealResponse; keep_invariant.
  - (* DailyPlanRejected *)
    keep_invariant.
  - (* ClickGenerate *)
    destruct Hview as [[_ Hv]|[[_ Hv]|[[_ Hv]|[_ Hv]]]]; rewrite Hv in Hen;
      discriminate Hen.
  - (* GenerateFulfilled *)
    rewrite Hgen in Hen.
    destruct (render s); discriminate Hen.
  - (* GenerateThrown *)
    rewrite Hgen in Hen.
    destruct (render s); discriminate Hen.
  - (* ClickStartOver *)
    keep_invariant.
  - (* ChatMealPlanUpdate *)
    keep_invariant.
  - (* ToggleChat *)
    keep_invariant.
  - (* CloseChat *)
    keep_invariant.
  - (* Reload *)
    keep_invariant; try reflexivity.
    destruct Hview as [[Hs _]|[[Hs _]|[[Hs _]|[Hs _]]]]; rewrite Hs;
      simpl; auto 6.
Qed.

Lemma invariant_initial : Invariant initial.
Proof.
  constructor; simpl; auto; try discriminate; unfold WALKED_STEPS; simpl; auto.
Qed.

Lemma reachable_invariant (s : State) : reachable s -> Invariant s.
Proof.
  induction 1 as [|s e _ IH Hen]; [exact invariant_initial|].
  now apply handle_preserves.
Qed.

Lemma sample_walk_reachable : reachable (run sample_walk initial).
Proof. apply reachable_run. exact reachable_initial. Qed.

(** The walk ends on the dashboard, after one registration. *)
Example sample_walk_dashboard :
  render (run sample_walk initial) = DashboardView true /\
  register_calls (run sample_walk initial)
  = [ {| height_cm := 170; weight_kg := 68; activity_level := 2;
         exercise_freq_per_week := 3; diabetic_type := "type1" |} ] /\
  fullProfile (run sample_walk initial)
  = Some {| height_cm := 170; weight_kg := 68; activity_level := 2;
            exercise_freq_per_week := 3; diabetic_type := "type1" |}.
Proof. repeat split; vm_compute; reflexivity. Qed.

(** X15.  Started on the start page, the wizard only ever shows the start
    page, the profile form, the care-mode selection and the dashboard, also
    across reloads of the page.  The
    default view, which holds the metrics step, the meal-plan step with the
    MealPlan card and the error banner, is never rendered: nothing a user can
    do calls [handleGenerateMealPlan], whose button sits on the metrics
    step. *)
Theorem wizard_views (s : State) :
  reachable s ->
  In (currentStep s) WALKED_STEPS /\
  match render s with
  | DefaultView _ _ _ => False
  | _ => True
  end.
Proof.
  intros Hr. apply reachable_invariant in Hr as [Hstep _ _ _ _].
  split; [exact Hstep|].
  destruct (walked_cases s Hstep) as [[_ Hv]|[[_ Hv]|[[_ Hv]|[_ Hv]]]];
    rewrite Hv; exact I.
Qed.

Lemma wizard_views_witness :
  In (currentStep (run sample_walk initial)) WALKED_STEPS /\
  match render (run sample_walk initial) with
  | DefaultView _ _ _ => False
  | _ => True
  end.
Proof.
  apply (wizard_views (run sample_walk initial)).
  apply reachable_run. exact reachable_initial.
Defined.

(** X16.  Every profile the wizard sends to [userApi.register] comes from an
    accepted form: its activity level is the default 2 (no control changes
    it), its workout frequency is one of the options 0..7, its weight is
    within 23..318 kg, and its diabetic type is the id of one of the three
    care modes, so never "gestational". *)
Theorem register_calls_registrable (s : State) :
  reachable s -> Forall registrable (register_calls s).
Proof.
  intros Hr. now apply reachable_invariant in Hr as [_ _ Hcalls _ _].
Qed.

Lemma register_calls_registrable_witness :
  Forall registrable (register_calls (run sample_walk initial)).
Proof.
  apply (register_calls_registrable (run sample_walk initial)).
  apply reachable_run. exact reachable_initial.
Defined.

(** X17.  Whenever the wizard holds a full profile, which is what the
    dashboard displays, that profile is one that was sent for registration;
    the dashboard then names its mode by one of the three card titles, shows
    a weight in pounds and not the placeholder, and shows a workout range
    [lo-hi] with [0 <= lo <= hi <= 7]. *)
Theorem dashboard_profile (s : State) (f : Profile) :
  reachable s -> fullProfile s = Some f ->
  In f (register_calls s) /\
  In (Dashboard.getModeName (Js.Str (diabetic_type f)))
     (map CareModeSelection.title CareModeSelection.MODES) /\
  (exists pounds : Z, Dashboard.weightLbs (Some f) = Some pounds) /\
  (exists lo hi : Z, Dashboard.activityLevel (Some f) = Some (lo, hi) /\
                     0 <= lo <= hi /\ hi <= 7).
Proof.
  intros Hr Hf. apply reachable_invariant in Hr as [_ _ Hcalls _ Hfull].
  pose proof (Hfull f Hf) as Hin.
  rewrite Forall_forall in Hcalls.
  destruct (Hcalls f ltac:(now apply list_elem_of_In)) as [(Ha & He & Hw) Hd].
  split; [exact Hin|]. split; [|split].
  - simpl in Hd. destruct Hd as [<-|[<-|[<-|[]]]]; simpl; auto.
  - unfold Dashboard.weightLbs.
    destruct (weight_kg f =? 0) eqn:Hz; [apply Z.eqb_eq in Hz; lia|].
    eexists. reflexivity.
  - unfold Dashboard.activityLevel. eexists _, _. split; [reflexivity|]. lia.
Qed.

Lemma dashboard_profile_witness :
  In {| height_cm := 170; weight_kg := 68; activity_level := 2;
        exercise_freq_per_week := 3; diabetic_type := "type1" |}
     (register_calls (run sample_walk initial)).
Proof.
  apply (dashboard_profile (run sample_walk initial)).
  - apply reachable_run. exact reachable_initial.
  - vm_compute. reflexivity.
Defined.

End WizardFacts.

(** ** App: Back, repeated *)

Module BackFacts.
Import App.

(** One Back on a number: it stays (it names no step, or START), or it
    becomes the literal of an earlier step. *)
Lemma handleBack_Num (q : Q) :
  (handleBack (Js.Num q) = Js.Num q /\
   (step_of (Js.Num q) = None \/ step_of (Js.Num q) = Some Start)) \/
  (exists (s : Step) (k : Q),
     step_of (Js.Num q) = Some s /\ handleBack (Js.Num q) = Js.Num k /\
     In k [0%Q; 1%Q; 2%Q; 3%Q; 4%Q]).
Proof.
  unfold step_of, handleBack; simpl.
  unfold STEPS.START, STEPS.PROFILE, STEPS.CARE_MODE, STEPS.DASHBOARD,
    STEPS.METRICS, STEPS.MEAL_PLAN.
  AppFacts.step_cases q 0%Q; AppFacts.step_cases q 1%Q; AppFacts.step_cases q 2%Q;
  AppFacts.step_cases q 3%Q; AppFacts.step_cases q 4%Q; AppFacts.step_cases q 5%Q;
  simpl; auto;
  right; eexists _, _; (split; [reflexivity|]); (split; [reflexivity|]); simpl; auto 6.
Qed.

(** X18.  Five Backs settle every step value: the result is left alone by a
    further Back, and when the value named a step the result is START. *)
Theorem five_backs (currentStep : Js.value) :
  handleBack (Nat.iter 5 handleBack currentStep) = Nat.iter 5 handleBack currentStep /\
  match step_of currentStep with
  | Some _ => step_of (Nat.iter 5 handleBack currentStep) = Some Start
  | None => Nat.iter 5 handleBack currentStep = currentStep
  end.
Proof.
  destruct currentStep as [| |b|q|s|fs]; try (split; reflexivity).
  change (Nat.iter 5 handleBack (Js.Num q))
    with (Nat.iter 4 handleBack (handleBack (Js.Num q))).
  destruct (handleBack_Num q) as [[Hfix Hstep]|(s & k & Hs & Hk & Hin)].
  - rewrite Hfix. simpl. rewrite !Hfix.
    split; [reflexivity|]. destruct Hstep as [->| ->]; reflexivity.
  - rewrite Hs, Hk. simpl in Hin.
    destruct Hin as [<-|[<-|[<-|[<-|[<-|[]]]]]]; split; reflexivity.
Qed.

End BackFacts.

(** ** ChatBox: what the chat keeps *)

Module ChatBoxFacts.
Import ChatBox.

Lemma ChatBox_errorMessage_truthy (error : Api.AxiosError) :
  Js.truthy (Catch.ChatBox_errorMessage error) = true.
Proof.
  unfold Catch.ChatBox_errorMessage.
  set (inner := Js.or (Api.detail error) (Api.message error)).
  unfold Js.or at 1. destruct (Js.truthy inner) eqn:Hi; [exact Hi | reflexivity].
Qed.

Lemma chat_reachable_run (trim : string -> string) (events : list Event) (s : State) :
  reachable trim s -> reachable trim (run trim events s).
Proof.
  revert s. induction events as [|e rest IH]; simpl; intros s Hs; [exact Hs|].
  apply IH. destruct (enabled s e) eqn:He; [now apply reachable_step | exact Hs].
Qed.

Section WithTrim.

Variable trim : string -> string.

Lemma chat_sendMessage_preserves (text : string) (s : State) :
  Invariant trim s -> Invariant trim (sendMessage trim text s).
Proof.
  intros [Hp Hs Hu He Hup]. unfold sendMessage.
  destruct (String.eqb (trim text) "") eqn:Hblank; simpl;
    [constructor; assumption|].
  destruct (loading s) eqn:Hl; simpl; [constructor; rewrite ?Hl; assumption|].
  apply String.eqb_neq in Hblank.
  constructor; simpl.
  - now rewrite Hp.
  - constructor; [|exact Hs]. split; [exact Hblank | now exists text].
  - apply Forall_app. split; [exact Hu|].
    constructor; [|constructor]. intros _. now exists text.
  - apply Forall_app. split; [exact He|].
    constructor; [|constructor]. simpl. discriminate.
  - exact Hup.
Qed.

Lemma chat_handle_preserves (s : State) (e : Event) :
  Invariant trim s -> enabled s e = true -> Invariant trim (handle trim e s).
Proof.
  intros Hinv Hen. destruct e; simpl.
  - (* Type_ *) destruct Hinv; constructor; simpl; assumption.
  - (* ClickSend *) now apply chat_sendMessage_preserves.
  - (* KeyPress *) unfold handleKeyPress.
    destruct (String.eqb key "Enter" && negb shiftKey);
      [now apply chat_sendMessage_preserves | exact Hinv].
  - (* ClickSuggestion *) now apply chat_sendMessage_preserves.
  - (* ChatFulfilled *)
    destruct Hinv as [Hp Hs Hu He Hup]. simpl in Hen.
    apply andb_true_iff in Hen as [Hpend _].
    destruct (loading s); [|rewrite Hp in Hpend; discriminate].
    constructor; simpl.
    + now rewrite Hp.
    + exact Hs.
    + apply Forall_app. split; [exact Hu|].
      constructor; [|constructor]. unfold user_bubble_ok; simpl. discriminate.
    + apply Forall_app. split; [exact He|].
      constructor; [|constructor]. simpl. discriminate.
    + destruct (carries_meal_plan response) eqn:Hc; [|exact Hup].
      constructor; [|exact Hup]. unfold carries_meal_plan in Hc.
      destruct (Js.get response "type"); try discriminate.
      now apply andb_true_iff in Hc as [_ Hc].
  - (* ChatThrown *)
    destruct Hinv as [Hp Hs Hu He Hup]. simpl in Hen.
    destruct (loading s); [|rewrite Hp in Hen; discriminate].
    constructor; simpl.
    + now rewrite Hp.
    + exact Hs.
    + apply Forall_app. split; [exact Hu|].
      constructor; [|constructor]. unfold user_bubble_ok; simpl. discriminate.
    + apply Forall_app. split; [exact He|].
      constructor; [|constructor]. simpl. intros _.
      apply ChatBox_errorMessage_truthy.
    + exact Hup.
  - (* ResetFulfilled *)
    destruct Hinv as [Hp Hs Hu He Hup]. constructor; simpl; try assumption;
      constructor.
Qed.

Lemma chat_reachable_invariant (s : State) : reachable trim s -> Invariant trim s.
Proof.
  induction 1 as [|s e _ IH Hen].
  - constructor; simpl; auto; constructor.
  - now apply chat_handle_preserves.
Qed.

(** X19.  The chat box never has two chat requests in flight: at most one
    is pending, and the "Thinking..." indicator is on exactly while it is. *)
Theorem chat_one_request (s : State) :
  reachable trim s ->
  (pending s <= 1)%nat /\ (loading s = true <-> pending s = 1%nat).
Proof.
  intros Hr. apply chat_reachable_invariant in Hr as [Hp _ _ _ _].
  destruct (loading s); rewrite Hp; split; try lia; split; congruence.
Qed.

(** X20.  A blank message is never sent: every text passed to
    [chatApi.sendMessage] is a trimmed text that is not empty, and so is the
    content of every bubble of the user. *)
Theorem chat_never_blank (s : State) :
  reachable trim s ->
  Forall (fun t => t <> "" /\ exists text, t = trim text) (sent s) /\
  Forall (user_bubble_ok trim) (messages s).
Proof.
  intros Hr. apply chat_reachable_invariant in Hr as [_ Hs Hu _ _]. now split.
Qed.



End WithTrim.

Example sample_session_result :
  messages (run trim_ascii sample_session initial)
  = [ userMessage "low carb dinner?";
      aiMessage (Js.Obj [("message", Js.Str "Try grilled salmon.");
                         ("type", Js.Str "chat")]) ] /\
  sent (run trim_ascii sample_session initial) = ["low carb dinner?"] /\
  loading (run trim_ascii sample_session initial) = false.
Proof. repeat split; vm_compute; reflexivity. Qed.

Lemma chat_one_request_witness :
  (pending (run trim_ascii sample_session initial) <= 1)%nat /\
  (loading (run trim_ascii sample_session initial) = true
   <-> pending (run trim_ascii sample_session initial) = 1%nat).
Proof.
  apply (chat_one_request trim_ascii (run trim_ascii sample_session initial)).
  apply chat_reachable_run. exact (reachable_initial trim_ascii).
Defined.

Lemma chat_never_blank_witness :
  Forall (fun t => t <> "" /\ exists text, t = trim_ascii text)
    (sent (run trim_ascii sample_session initial)) /\
  Forall (user_bubble_ok trim_ascii) (messages (run trim_ascii sample_session initial)).
Proof.
  apply (chat_never_blank trim_ascii (run trim_ascii sample_session initial)).
  apply chat_reachable_run. exact (reachable_initial trim_ascii).
Defined.



End ChatBoxFacts.

(** ** ProfileForm: which submissions are accepted *)

Module AcceptanceFacts.
Import Constants ProfileForm.

Lemma lt_false_iff (x y : Q) : Js.lt x y = false <-> (y <= x)%Q.
Proof.
  unfold Js.lt. rewrite negb_false_iff. apply Qle_bool_iff.
Qed.

(** X23.  [onSubmit] is called exactly when the feet are filled in and
    within 3..8 and the pounds are filled in and within 50..700, bounds
    included; the inches and the rest of the profile play no part. *)
Theorem handleSubmit_accepts_iff
    (profile : Profile) (heightFt heightIn weightLbs : field) :
  (exists p : Profile, handleSubmit profile heightFt heightIn weightLbs = Some p) <->
  is_blank heightFt = false /\ (3 <= Number heightFt <= 8)%Q /\
  is_blank weightLbs = false /\ (50 <= Number weightLbs <= 700)%Q.
Proof.
  split.
  - intros [p Hp]. unfold handleSubmit in Hp.
    destruct (validate heightFt heightIn weightLbs) eqn:Hv; [|discriminate].
    now apply ProfileFormFacts.validate_bounds in Hv.
  - intros (Hfb & [Hf3 Hf8] & Hwb & [Hw50 Hw700]).
    unfold handleSubmit, validate, no_keys, newErrors, Js.gt; simpl.
    rewrite Hfb, Hwb; simpl.
    rewrite (proj2 (lt_false_iff (Number heightFt) 3) Hf3).
    rewrite (proj2 (lt_false_iff 8 (Number heightFt)) Hf8).
    rewrite (proj2 (lt_false_iff (Number weightLbs) 50) Hw50).
    rewrite (proj2 (lt_false_iff 700 (Number weightLbs)) Hw700).
    simpl. eexists. reflexivity.
Qed.

Example handleSubmit_bounds_included :
  handleSubmit DEFAULT_PROFILE (Entered 3) Blank (Entered 50) <> None /\
  handleSubmit DEFAULT_PROFILE (Entered 8) Blank (Entered 700) <> None /\
  handleSubmit DEFAULT_PROFILE (Entered (299 # 100)) Blank (Entered 50) = None /\
  handleSubmit DEFAULT_PROFILE Blank (Entered 70) (Entered 150) = None.
Proof. repeat split; vm_compute; discriminate. Qed.

End AcceptanceFacts.
